(** * Plugin type-definition synchronisation of the Cordova tools extension

    A shallow embedding of [src/cordova.ts]: the functions
    [getPluginTypingsJson], [getNewTypeDefinitions],
    [addPluginTypeDefinitions], [removePluginTypeDefinitions],
    [getRelativeTypeDefinitionFilePath], [updatePluginTypeDefinitions] and
    [activate], written in a small state / log / exception monad over an
    abstract host (file system, Node's [path], [CordovaProjectHelper],
    [TsdHelper], telemetry).

    Asynchronous calls ([fs.readdir], [fs.unlink], [fs.writeFile], the
    installer) are run at the point of the call, their callback right
    after: the schedule in which nothing else happens in between.  The
    event loop further down splits a pass at its two [fs.readdir] calls and
    lets passes interleave.  An exception thrown in a callback is the
    [Thrown] completion of the pass: nothing in the file catches it.

    A lookup in the catalog is the property lookup of JavaScript, which
    also finds what every object inherits from [Object.prototype]; an array
    of declaration files can therefore hold [undefined]. *)

From Stdlib Require Import Ascii String.
From stdpp Require Import gmap strings list pretty.

Open Scope string_scope.

(** ** Data model *)

(** A value of [pluginTypings.json]: [{ typingFile: string }]. *)
Record TypingDescriptor := { typingFile : string }.

(** The parsed [pluginTypings.json]: a JS object used as a map from plugin
    name to descriptor.  The [gmap] holds its own properties, the keys of
    the JSON file. *)
Abbreviation Catalog := (gmap string TypingDescriptor).

(** The property names every object inherits from [Object.prototype]. *)
Definition objectPrototypeNames : list string :=
  ["constructor"; "hasOwnProperty"; "isPrototypeOf"; "propertyIsEnumerable";
   "toLocaleString"; "toString"; "valueOf"; "__proto__";
   "__defineGetter__"; "__defineSetter__"; "__lookupGetter__"; "__lookupSetter__"].

(** What [pluginTypings[name]] evaluates to: the descriptor of a key of the
    JSON file; for another name that [Object.prototype] has, the inherited
    member (a function, or the prototype itself for [__proto__]); and
    [undefined] otherwise. *)
Inductive Property :=
| Own (d : TypingDescriptor)
| Inherited
| Undefined.

Definition getProperty (pluginTypings : Catalog) (name : string) : Property :=
  match pluginTypings !! name with
  | Some d => Own d
  | None =>
      if bool_decide (name ∈ objectPrototypeNames) then Inherited else Undefined
  end.

(** Truthiness: descriptors and inherited members are objects. *)
Definition toBoolean (p : Property) : bool :=
  match p with
  | Undefined => false
  | _ => true
  end.

Inductive TelemetryEvent :=
| ActivateEvent
| UnknownPluginEvent (piiPlugin : string).

(** What a run does to the outside world, in program order.  An entry of
    an array of declaration files is a string or [undefined] ([None]). *)
Inductive Effect :=
| ConsoleError (msg : string)
| ConsoleLog (msg : string)
| TelemetryInit (appName : string)
| TelemetrySend (e : TelemetryEvent)
| InstallTypings (typingsFolderPath : string) (typeDefsPath : list (option string))
| Readdir (folder : string)
| Unlink (path : string)
| CreateFileSystemWatcher (glob : string)
| ExtensionServerSetup
| RegisterCommand (name : string)
| WriteFile (path : string) (data : string)
| ShowInformationMessage (msg : string).

Inductive Exn := TypeError (msg : string).

Inductive Completion (A : Type) :=
| Normal (a : A)
| Thrown (e : Exn).
Arguments Normal {A} a.
Arguments Thrown {A} e.

(** ** The monad: host state, effect log, exceptions *)

Record Run (S A : Type) := MkRun {
  final : S;
  trace : list Effect;
  completion : Completion A
}.
Arguments MkRun {S A} _ _ _.
Arguments final {S A} _.
Arguments trace {S A} _.
Arguments completion {S A} _.

Definition M (S A : Type) : Type := S → Run S A.

Definition ret {S A} (a : A) : M S A := λ s, MkRun s [] (Normal a).

Definition throw {S A} (e : Exn) : M S A := λ s, MkRun s [] (Thrown e).

Definition bind {S A B} (m : M S A) (k : A → M S B) : M S B := λ s,
  let r := m s in
  match completion r with
  | Normal a =>
      let r' := k a (final r) in
      MkRun (final r') (trace r ++ trace r') (completion r')
  | Thrown e => MkRun (final r) (trace r) (Thrown e)
  end.

Definition emit {S} (e : Effect) : M S unit := λ s, MkRun s [e] (Normal tt).

Definition gets {S A} (f : S → A) : M S A := λ s, MkRun s [] (Normal (f s)).

Definition modify {S} (f : S → S) : M S unit := λ s, MkRun (f s) [] (Normal tt).

Arguments bind {S A B} m k s : simpl never.

Declare Scope prog_scope.
Delimit Scope prog_scope with prog.
Notation "'let*' x ':=' m 'in' k" := (bind m (λ x, k))
  (at level 10, x name, m at level 100, k at level 200) : prog_scope.
Notation "m ';;' k" := (bind m (λ _, k))
  (at level 100, k at level 200, right associativity) : prog_scope.
Open Scope prog_scope.

(** [Array.prototype.forEach], [filter] and [map] with effectful callbacks. *)
Fixpoint forEach {S A} (f : A → M S unit) (l : list A) : M S unit :=
  match l with
  | [] => ret tt
  | x :: l' => f x ;; forEach f l'
  end.

Fixpoint filterM {S A} (p : A → M S bool) (l : list A) : M S (list A) :=
  match l with
  | [] => ret []
  | x :: l' =>
      let* b := p x in
      let* r := filterM p l' in
      ret (if b then x :: r else r)
  end.

Fixpoint mapM {S A B} (f : A → M S B) (l : list A) : M S (list B) :=
  match l with
  | [] => ret []
  | x :: l' =>
      let* y := f x in
      let* r := mapM f l' in
      ret (y :: r)
  end.

(** [Array.prototype.indexOf]: first position, or [-1]. *)
Fixpoint indexOfFrom {A} `{EqDecision A} (i : Z) (l : list A) (x : A) : Z :=
  match l with
  | [] => (-1)%Z
  | y :: l' => if decide (y = x) then i else indexOfFrom (i + 1)%Z l' x
  end.

Definition indexOf {A} `{EqDecision A} (l : list A) (x : A) : Z := indexOfFrom 0 l x.

(** [s.replace(/\\/g, '/')]. *)
Fixpoint replaceBackslashes (s : string) : string :=
  match s with
  | EmptyString => EmptyString
  | String c r =>
      String (if Ascii.eqb c "\"%char then "/"%char else c) (replaceBackslashes r)
  end.

(** ** The host

    Everything [cordova.ts] imports: Node's [fs] and [path],
    [CordovaProjectHelper], [TsdHelper] and the [vscode] workspace.  The
    state [S] is whatever the host keeps (the disk).  The three folder
    functions of [CordovaProjectHelper] are taken as path computations; a
    typings directory that [getOrCreateTypingsTargetPath] may create on the
    way is not tracked. *)
Class Host (S : Type) := {
  (* module constants *)
  dirname : string;
  workspaceRootPath : string;
  (* path *)
  path_resolve : list string → string;
  path_relative : string → string → string;
  path_join : list string → string;
  (* fs *)
  fs_exists : string → S → bool;
  fs_readdir_result : string → S → option (list string);
  fs_unlink_result : string → S → option S;
  fs_writeFile_result : string → string → S → option S;
  require_json : string → S → Catalog;
  (* CordovaProjectHelper *)
  getCordovaProjectRoot : string → S → option string;
  existsSync : string → S → bool;
  getInstalledPlugins_result : string → S → list string;
  getOrCreateTypingsTargetPath : string → string;
  getCordovaPluginTypeDefsPath : string → string;
  getIonicPluginTypeDefsPath : string → string;
  (* TsdHelper *)
  installTypings_result : string → list (option string) → S → S
}.

Section Extension.
Context {S : Type} `{Host S}.

Definition PLUGIN_TYPE_DEFS_FILENAME := "pluginTypings.json".
Definition PLUGIN_TYPE_DEFS_PATH : string :=
  path_resolve [dirname; ".."; ".."; PLUGIN_TYPE_DEFS_FILENAME].
Definition CORDOVA_TYPINGS_QUERYSTRING := "cordova".
Definition JSCONFIG_FILENAME := "jsconfig.json".
Definition TSCONFIG_FILENAME := "tsconfig.json".

(** The quotation mark, for the messages that hold one. *)
Definition quote : string := String "034"%char EmptyString.

(** The message of [console.error] on line 102. *)
Definition CATALOG_MISSING_MESSAGE : string :=
  "Cordova plugin type declaration mapping file " +:+ quote +:+ "pluginTypings.json"
  +:+ quote +:+ " is missing from the extension folder.".

(** The message of [showInformationMessage] on line 87. *)
Definition JSCONFIG_ADDED_MESSAGE : string :=
  "To enable IntelliSense a " +:+ quote +:+ "jsconfig.json" +:+ quote
  +:+ " file was added to your project. Please close and reopen any active JavaScript file(s).".

(** *** Host calls as actions *)

Definition installTypings (typingsFolderPath : string)
    (typeDefsPath : list (option string)) : M S unit :=
  emit (InstallTypings typingsFolderPath typeDefsPath) ;;
  modify (installTypings_result typingsFolderPath typeDefsPath).

(** [fs.readdir(folder, callback)]: the callback receives the listing, or
    nothing ([None]) when the read failed. *)
Definition fs_readdir (folder : string) (callback : option (list string) → M S unit)
  : M S unit :=
  emit (Readdir folder) ;;
  let* listing := gets (fs_readdir_result folder) in
  callback listing.

(** [fs.unlink(path, callback)]: the callback receives whether it failed. *)
Definition fs_unlink (path : string) (callback : bool → M S unit) : M S unit :=
  emit (Unlink path) ;;
  let* r := gets (fs_unlink_result path) in
  match r with
  | Some s' => modify (λ _, s') ;; callback false
  | None => callback true
  end.

(** [Q.nfcall(fs.writeFile, path, data).then(onWritten)]: [onWritten] runs
    when the write succeeded; a failed write rejects a promise nobody
    handles. *)
Definition fs_writeFile (path data : string) (onWritten : unit → M S unit)
  : M S unit :=
  emit (WriteFile path data) ;;
  let* r := gets (fs_writeFile_result path data) in
  match r with
  | Some s' => modify (λ _, s') ;; onWritten tt
  | None => ret tt
  end.

(** [pluginTypings[pluginName].typingFile]: the descriptor's file;
    [undefined] for an inherited member, which has no such property; a
    [TypeError] when the lookup itself is [undefined]. *)
Definition typingFileOf (pluginTypings : Catalog) (pluginName : string)
  : M S (option string) :=
  match getProperty pluginTypings pluginName with
  | Own d => ret (Some (typingFile d))
  | Inherited => ret None
  | Undefined => throw (TypeError "Cannot read property 'typingFile' of undefined")
  end.

(** [arr.indexOf(x)] where [arr] may be [undefined]. *)
Definition indexOfMethod (arr : option (list (option string))) (x : option string)
  : M S Z :=
  match arr with
  | Some l => ret (indexOf l x)
  | None => throw (TypeError "Cannot read property 'indexOf' of undefined")
  end.

(** *** cordova.ts *)

Definition getPluginTypingsJson : M S (option Catalog) :=
  let* present := gets (existsSync PLUGIN_TYPE_DEFS_PATH) in
  if (present : bool) then
    let* json := gets (require_json PLUGIN_TYPE_DEFS_PATH) in
    ret (Some json)
  else
    emit (ConsoleError CATALOG_MISSING_MESSAGE) ;;
    ret None.

(** Returns [undefined] ([None]) when the catalog is missing. *)
Definition getNewTypeDefinitions (installedPlugins : list string)
  : M S (option (list (option string))) :=
  let* pluginTypings := getPluginTypingsJson in
  match pluginTypings with
  | None => ret None
  | Some pluginTypings =>
      let* defs :=
        mapM (typingFileOf pluginTypings)
             (filter (λ pluginName,
                        toBoolean (getProperty pluginTypings pluginName) = true)
                     installedPlugins) in
      ret (Some defs)
  end.

Definition addPluginTypeDefinitions (projectRoot : string)
    (installedPlugins currentTypeDefs : list string) : M S unit :=
  let* pluginTypings := getPluginTypingsJson in
  match pluginTypings with
  | None => ret tt
  | Some pluginTypings =>
      let* known :=
        filterM (λ pluginName,
          if toBoolean (getProperty pluginTypings pluginName) then
            let* file := typingFileOf pluginTypings pluginName in
            ret (bool_decide (indexOf (Some <$> currentTypeDefs) file < 0)%Z)
          else
            emit (TelemetrySend (UnknownPluginEvent pluginName)) ;;
            ret false) installedPlugins in
      let* typingsToAdd := mapM (typingFileOf pluginTypings) known in
      installTypings (getOrCreateTypingsTargetPath projectRoot) typingsToAdd
  end.

Definition removePluginTypeDefinitions (projectRoot : string)
    (currentTypeDefs : list string) (newTypeDefs : option (list (option string)))
  : M S unit :=
  forEach (λ typeDef,
    let* i := indexOfMethod newTypeDefs (Some typeDef) in
    if bool_decide (i < 0)%Z then
      let fileToDelete :=
        path_resolve [getOrCreateTypingsTargetPath projectRoot; typeDef] in
      fs_unlink fileToDelete (λ err,
        if (err : bool) then emit (ConsoleLog ("Failed to delete file " +:+ fileToDelete))
        else ret tt)
    else ret tt) currentTypeDefs.

(** The removal step in the spec's words: "for each, delete the
    corresponding file under the typings target directory; deletion failures
    are logged and otherwise ignored".  The disk and the effects after
    deleting [paths] one by one from [s]. *)
Fixpoint deleteEach (paths : list string) (s : S) : S * list Effect :=
  match paths with
  | [] => (s, [])
  | p :: rest =>
      match fs_unlink_result p s with
      | Some s' =>
          let '(sf, t) := deleteEach rest s' in (sf, Unlink p :: t)
      | None =>
          let '(sf, t) := deleteEach rest s in
          (sf, Unlink p :: ConsoleLog ("Failed to delete file " +:+ p) :: t)
      end
  end.

Definition getRelativeTypeDefinitionFilePath
    (projectRoot parentPath typeDefinitionFile : string) : string :=
  replaceBackslashes
    (path_relative (getOrCreateTypingsTargetPath projectRoot)
                   (path_resolve [parentPath; typeDefinitionFile])).

(** The value [currentTypeDefs] has when the callback of the second
    [fs.readdir] reads it (lines 183-184), on the disk [s] the pass starts
    from: the listing of the Cordova folder, made relative. *)
Definition currentTypeDefsAt (cordovaProjectRoot : string) (s : S) : list string :=
  match fs_readdir_result (getCordovaPluginTypeDefsPath cordovaProjectRoot) s with
  | Some l =>
      map (getRelativeTypeDefinitionFilePath
             cordovaProjectRoot (getCordovaPluginTypeDefsPath cordovaProjectRoot)) l
  | None => []
  end.

Definition updatePluginTypeDefinitions (cordovaProjectRoot : string) : M S unit :=
  let* installedPlugins := gets (getInstalledPlugins_result cordovaProjectRoot) in
  let* newTypeDefs := getNewTypeDefinitions installedPlugins in
  let cordovaPluginTypesFolder := getCordovaPluginTypeDefsPath cordovaProjectRoot in
  let ionicPluginTypesFolder := getIonicPluginTypeDefsPath cordovaProjectRoot in
  let* primary := gets (existsSync cordovaPluginTypesFolder) in
  if negb primary then
    addPluginTypeDefinitions cordovaProjectRoot installedPlugins []
  else
    let currentTypeDefs : list string := [] in
    fs_readdir cordovaPluginTypesFolder (λ cordovaTypeDefs,
      let currentTypeDefs :=
        match cordovaTypeDefs with
        | Some l =>
            map (getRelativeTypeDefinitionFilePath
                   cordovaProjectRoot cordovaPluginTypesFolder) l
        | None => currentTypeDefs
        end in
      fs_readdir ionicPluginTypesFolder (λ ionicTypeDefs,
        (* [currentTypeDefs.concat(...)] builds a new array, which the
           source drops: [currentTypeDefs] itself is unchanged. *)
        let _ :=
          match ionicTypeDefs with
          | Some l =>
              (currentTypeDefs ++
               map (getRelativeTypeDefinitionFilePath
                      cordovaProjectRoot ionicPluginTypesFolder) l)%list
          | None => currentTypeDefs
          end in
        addPluginTypeDefinitions cordovaProjectRoot installedPlugins currentTypeDefs ;;
        removePluginTypeDefinitions cordovaProjectRoot currentTypeDefs newTypeDefs)).

(** Lines 22-91.  Two promise chains of [activate] run their callbacks
    after it has returned: the one that sends the [activate] telemetry
    event, and the one that checks for [jsconfig.json] and [tsconfig.json].
    Each is recorded here where [activate] starts it, so the event is in the
    trace before the watcher, and the pass that line 77 starts is complete
    before the check. *)
Definition activate : M S unit :=
  emit (TelemetryInit "cordova-tools") ;;
  let* cordovaProjectRoot := gets (getCordovaProjectRoot workspaceRootPath) in
  match cordovaProjectRoot with
  | None => ret tt
  | Some cordovaProjectRoot =>
      emit (TelemetrySend ActivateEvent) ;;
      emit (CreateFileSystemWatcher "**/plugins/fetch.json") ;;
      emit ExtensionServerSetup ;;
      emit (RegisterCommand "cordova.prepare") ;;
      emit (RegisterCommand "cordova.build") ;;
      emit (RegisterCommand "cordova.run") ;;
      let* pluginTypings := getPluginTypingsJson in
      match pluginTypings with
      | None => ret tt
      | Some pluginTypings =>
          let* self := typingFileOf pluginTypings CORDOVA_TYPINGS_QUERYSTRING in
          installTypings (getOrCreateTypingsTargetPath cordovaProjectRoot) [self] ;;
          updatePluginTypeDefinitions cordovaProjectRoot ;;
          let jsconfigPath := path_join [workspaceRootPath; JSCONFIG_FILENAME] in
          let tsconfigPath := path_join [workspaceRootPath; TSCONFIG_FILENAME] in
          let* jsExists := gets (fs_exists jsconfigPath) in
          let* tsExists := gets (fs_exists tsconfigPath) in
          if negb jsExists && negb tsExists then
            fs_writeFile jsconfigPath "{}" (λ _,
              emit (ShowInformationMessage JSCONFIG_ADDED_MESSAGE))
          else ret tt
      end
  end.

End Extension.

(** ** Reading a trace *)

Definition installCalls (t : list Effect) : list (string * list (option string)) :=
  omap (λ e, match e with InstallTypings d l => Some (d, l) | _ => None end) t.

Definition unlinked (t : list Effect) : list string :=
  omap (λ e, match e with Unlink p => Some p | _ => None end) t.

Definition readFolders (t : list Effect) : list string :=
  omap (λ e, match e with Readdir f => Some f | _ => None end) t.

Definition sentEvents (t : list Effect) : list TelemetryEvent :=
  omap (λ e, match e with TelemetrySend ev => Some ev | _ => None end) t.

Definition isTelemetry (e : Effect) : bool :=
  match e with TelemetrySend _ => true | _ => false end.

Definition withoutTelemetry (t : list Effect) : list Effect :=
  filter (λ e, isTelemetry e = false) t.

(** The spec's desired set, in its words:
    [{ catalog[p].typingFile : p in installed, p in catalog }],
    kept as a list in the order of the installed plugins. *)
Definition desired (catalog : Catalog) (installed : list string) : list string :=
  omap (λ p, typingFile <$> catalog !! p) installed.

(** The array [getNewTypeDefinitions] builds from a catalog: for each
    installed plugin whose lookup is truthy, the [typingFile] of what the
    lookup found. *)
Definition newTypeDefsFor (catalog : Catalog) (installed : list string)
  : list (option string) :=
  omap (λ p, match getProperty catalog p with
             | Own d => Some (Some (typingFile d))
             | Inherited => Some None
             | Undefined => None
             end) installed.

(** ** The event loop

    [fs.readdir] is asynchronous: the function that calls it returns, and
    the callback runs in a later turn of Node's event loop.  A pass of
    [updatePluginTypeDefinitions] is therefore three turns: the body up to
    the first [fs.readdir], the callback of the Cordova folder read, and
    the callback of the Ionic folder read.  A pass that waits for a read is
    kept as the data its callback closes over. *)
Inductive Pending :=
| AwaitCordovaTypeDefs (cordovaProjectRoot : string)
    (installedPlugins : list string) (newTypeDefs : option (list (option string)))
| AwaitIonicTypeDefs (cordovaProjectRoot : string)
    (installedPlugins : list string) (newTypeDefs : option (list (option string)))
    (currentTypeDefs : list string).

Inductive ManifestChange := DidChange | DidDelete | DidCreate.

Inductive LoopInput :=
| ManifestEvent (kind : ManifestChange)
| ReadCompletes (i : nat).

Record Loop (S : Type) := MkLoop {
  disk : S;
  inFlight : list Pending;
  journal : list Effect;
  uncaught : list Exn
}.
Arguments MkLoop {S} _ _ _ _.
Arguments disk {S} _.
Arguments inFlight {S} _.
Arguments journal {S} _.
Arguments uncaught {S} _.

Section EventLoop.
Context {S : Type} `{Host S}.

(** First turn: lines 159-172, up to the call of [fs.readdir]. *)
Definition startPass (cordovaProjectRoot : string) : M S (option Pending) :=
  let* installedPlugins := gets (getInstalledPlugins_result cordovaProjectRoot) in
  let* newTypeDefs := getNewTypeDefinitions installedPlugins in
  let cordovaPluginTypesFolder := getCordovaPluginTypeDefsPath cordovaProjectRoot in
  let* primary := gets (existsSync cordovaPluginTypesFolder) in
  if negb primary then
    addPluginTypeDefinitions cordovaProjectRoot installedPlugins [] ;;
    ret None
  else
    emit (Readdir cordovaPluginTypesFolder) ;;
    ret (Some (AwaitCordovaTypeDefs cordovaProjectRoot installedPlugins newTypeDefs)).

(** Later turns: the callback of the read a pass waits for. *)
Definition resumePass (p : Pending) : M S (option Pending) :=
  match p with
  | AwaitCordovaTypeDefs cordovaProjectRoot installedPlugins newTypeDefs =>
      let cordovaPluginTypesFolder := getCordovaPluginTypeDefsPath cordovaProjectRoot in
      let ionicPluginTypesFolder := getIonicPluginTypeDefsPath cordovaProjectRoot in
      let* cordovaTypeDefs := gets (fs_readdir_result cordovaPluginTypesFolder) in
      let currentTypeDefs :=
        match cordovaTypeDefs with
        | Some l =>
            map (getRelativeTypeDefinitionFilePath
                   cordovaProjectRoot cordovaPluginTypesFolder) l
        | None => []
        end in
      emit (Readdir ionicPluginTypesFolder) ;;
      ret (Some (AwaitIonicTypeDefs cordovaProjectRoot installedPlugins
                                    newTypeDefs currentTypeDefs))
  | AwaitIonicTypeDefs cordovaProjectRoot installedPlugins newTypeDefs currentTypeDefs =>
      addPluginTypeDefinitions cordovaProjectRoot installedPlugins currentTypeDefs ;;
      removePluginTypeDefinitions cordovaProjectRoot currentTypeDefs newTypeDefs ;;
      ret None
  end.

(** One turn of the loop, folded into the loop state.  An exception that
    leaves a turn is uncaught: nothing in [cordova.ts] catches it. *)
Definition turn (m : M S (option Pending)) (rest : list Pending) (st : Loop S)
  : Loop S :=
  let r := m (disk st) in
  match completion r with
  | Normal next =>
      MkLoop (final r) (rest ++ option_list next)%list
             (journal st ++ trace r)%list (uncaught st)
  | Thrown e =>
      MkLoop (final r) rest (journal st ++ trace r)%list
             (uncaught st ++ [e])%list
  end.

(** The three watcher handlers of [activate] all call
    [updatePluginTypeDefinitions(cordovaProjectRoot)]. *)
Definition loopStep (cordovaProjectRoot : string) (i : LoopInput) (st : Loop S)
  : Loop S :=
  match i with
  | ManifestEvent _ => turn (startPass cordovaProjectRoot) (inFlight st) st
  | ReadCompletes n =>
      match inFlight st !! n with
      | Some p => turn (resumePass p) (delete n (inFlight st)) st
      | None => st
      end
  end.

Definition runLoop (cordovaProjectRoot : string) (inputs : list LoopInput)
    (st : Loop S) : Loop S :=
  foldl (λ st i, loopStep cordovaProjectRoot i st) st inputs.

Definition idle (s : S) : Loop S := MkLoop s [] [] [].

Definition passesInFlight (st : Loop S) : nat := length (inFlight st).

(** Passes over [cordovaProjectRoot] are serialized when, whatever events
    and read completions arrive, at most one pass is under way. *)
Definition serialized (cordovaProjectRoot : string) (s : S) : Prop :=
  ∀ inputs, (passesInFlight (runLoop cordovaProjectRoot inputs (idle s)) ≤ 1)%nat.

(** The [newTypeDefs] a waiting pass closed over. *)
Definition newTypeDefsOf (p : Pending) : option (list (option string)) :=
  match p with
  | AwaitCordovaTypeDefs _ _ newTypeDefs => newTypeDefs
  | AwaitIonicTypeDefs _ _ newTypeDefs _ => newTypeDefs
  end.

(** The catalog file is in place whenever a manifest event arrives, in the
    run of [inputs] from [st]. *)
Fixpoint catalogAtEveryEvent (cordovaProjectRoot : string)
    (inputs : list LoopInput) (st : Loop S) : Prop :=
  match inputs with
  | [] => True
  | i :: rest =>
      match i with
      | ManifestEvent _ => existsSync PLUGIN_TYPE_DEFS_PATH (disk st) = true
      | ReadCompletes _ => True
      end
      ∧ catalogAtEveryEvent cordovaProjectRoot rest (loopStep cordovaProjectRoot i st)
  end.

End EventLoop.

(** ** An in-memory host

    A concrete host over a disk of absolute POSIX paths, used to run the
    extension on example disks.  Paths are resolved as Node's [path] module
    does on POSIX, the working directory being the root. *)
Module MemFs.

Record Disk := MkDisk {
  files : gset string;
  dirs : gset string;
  locked : gset string;
  fetchJson : list string;
  pluginTypingsJson : Catalog;
  cordovaRoot : option string
}.

(** The pieces of a path between its ["/"]. *)
Fixpoint segmentsFrom (piece s : string) : list string :=
  match s with
  | EmptyString => [piece]
  | String c r =>
      if Ascii.eqb c "/"%char then piece :: segmentsFrom "" r
      else segmentsFrom (piece +:+ String c EmptyString) r
  end.

Definition segments (s : string) : list string := segmentsFrom "" s.

(** Walking along segments from a directory, kept as the list of its
    segments, innermost first: empty segments and ["."] stay, [".."] goes
    up, and stays at the root. *)
Fixpoint walk (stack segs : list string) : list string :=
  match segs with
  | [] => stack
  | seg :: rest =>
      if bool_decide (seg = "" ∨ seg = ".") then walk stack rest
      else if bool_decide (seg = "..") then walk (tail stack) rest
      else walk (seg :: stack) rest
  end.

(** The same for a relative path, where [".."] can climb above the start. *)
Fixpoint walkRelative (stack segs : list string) : list string :=
  match segs with
  | [] => stack
  | seg :: rest =>
      if bool_decide (seg = "" ∨ seg = ".") then walkRelative stack rest
      else if bool_decide (seg = "..") then
        match stack with
        | top :: below =>
            if bool_decide (top = "..") then walkRelative (seg :: stack) rest
            else walkRelative below rest
        | [] => walkRelative [seg] rest
        end
      else walkRelative (seg :: stack) rest
  end.

Fixpoint joinWith (sep : string) (l : list string) : string :=
  match l with
  | [] => ""
  | [a] => a
  | a :: rest => a +:+ sep +:+ joinWith sep rest
  end.

Definition isAbsolute (p : string) : bool :=
  match p with
  | String c _ => Ascii.eqb c "/"%char
  | EmptyString => false
  end.

Fixpoint endsWithSlash (p : string) : bool :=
  match p with
  | EmptyString => false
  | String c EmptyString => Ascii.eqb c "/"%char
  | String _ r => endsWithSlash r
  end.

(** The segments of the absolute path that [path.resolve(...l)] denotes,
    outermost first: each argument is walked from where the previous ones
    led, an absolute one from the root. *)
Definition resolveSegments (l : list string) : list string :=
  reverse (foldl (λ stack p, walk (if isAbsolute p then [] else stack) (segments p))
                 [] l).

(** [path.resolve(...l)]. *)
Definition resolvePath (l : list string) : string :=
  "/" +:+ joinWith "/" (resolveSegments l).

Fixpoint dropCommon (a b : list string) : list string * list string :=
  match a, b with
  | x :: a', y :: b' => if decide (x = y) then dropCommon a' b' else (a, b)
  | _, _ => (a, b)
  end.

(** [path.relative(from, to)]: up from [from] to the last directory the two
    share, then down to [to]. *)
Definition relativePath (from to : string) : string :=
  let '(up, down) := dropCommon (resolveSegments [from]) (resolveSegments [to]) in
  joinWith "/" (replicate (length up) ".." ++ down).

(** [path.normalize(p)]. *)
Definition normalizePath (p : string) : string :=
  match p with
  | EmptyString => "."
  | _ =>
      let body :=
        joinWith "/" (reverse (if isAbsolute p then walk [] (segments p)
                               else walkRelative [] (segments p))) in
      let body :=
        match body with
        | EmptyString => if isAbsolute p then "" else "."
        | _ => if endsWithSlash p then body +:+ "/" else body
        end in
      if isAbsolute p then "/" +:+ body else body
  end.

(** [path.join(...l)]. *)
Definition joinPath (l : list string) : string :=
  normalizePath (joinWith "/" (filter (λ p, p ≠ "") l)).

Fixpoint stripPrefix (pre s : string) : option string :=
  match pre with
  | EmptyString => Some s
  | String c pre' =>
      match s with
      | EmptyString => None
      | String c' s' => if Ascii.eqb c c' then stripPrefix pre' s' else None
      end
  end.

Fixpoint noSlash (s : string) : bool :=
  match s with
  | EmptyString => true
  | String c r => negb (Ascii.eqb c "/"%char) && noSlash r
  end.

Fixpoint noBackslash (s : string) : bool :=
  match s with
  | EmptyString => true
  | String c r => negb (Ascii.eqb c "\"%char) && noBackslash r
  end.

(** The name of [p] inside [dir], when [p] lies directly in [dir]. *)
Definition child (dir p : string) : option string :=
  match stripPrefix (if decide (dir = "/") then "/" else dir +:+ "/") p with
  | Some n => if noSlash n && negb (String.eqb n "") then Some n else None
  | None => None
  end.

(** The directories above a path, outermost first, but for the root. *)
Fixpoint ancestorsFrom (above segs : list string) : list string :=
  match segs with
  | [] => []
  | [_] => []
  | seg :: rest =>
      ("/" +:+ joinWith "/" (above ++ [seg])) :: ancestorsFrom (above ++ [seg]) rest
  end.

Definition ancestors (p : string) : list string :=
  ancestorsFrom [] (resolveSegments [p]).

Definition extensionDir := "/ext/out/src".
Definition catalogPath := resolvePath [extensionDir; ".."; ".."; "pluginTypings.json"].

(** The disk holds files and directories under their resolved paths; the
    root is always a directory. *)
Definition isDirectory (p : string) (d : Disk) : bool :=
  bool_decide (p = "/" ∨ p ∈ dirs d).

Definition exists_ (p : string) (d : Disk) : bool :=
  bool_decide (p ∈ files d) || isDirectory p d.

(** The names of the files and of the directories directly inside [dir];
    the read fails when [dir] is not a directory. *)
Definition readdir (dir : string) (d : Disk) : option (list string) :=
  if isDirectory dir d
  then Some (omap (child dir) (elements (files d ∪ dirs d)))
  else None.

(** [unlink] fails on a missing file (ENOENT), on a directory and on a
    locked file (EACCES). *)
Definition unlink (p : string) (d : Disk) : option Disk :=
  if bool_decide (p ∈ files d ∧ p ∉ locked d) then
    Some (MkDisk (files d ∖ {[p]}) (dirs d) (locked d) (fetchJson d)
                 (pluginTypingsJson d) (cordovaRoot d))
  else None.

(** [writeFile] fails on a directory, on a locked file and when the
    directory to write in is missing. *)
Definition writeFile (p data : string) (d : Disk) : option Disk :=
  if isDirectory p d || bool_decide (p ∈ locked d)
     || negb (isDirectory (resolvePath [p; ".."]) d)
  then None
  else Some (MkDisk (files d ∪ {[p]}) (dirs d) (locked d) (fetchJson d)
                    (pluginTypingsJson d) (cordovaRoot d)).

(** Modelled from the spec: the typings installer [TsdHelper.installTypings],
    which is not among the sources.  "Given a target directory and a list of
    declaration identifiers, ensures those declaration files exist there,
    idempotently"; "[install(targetDir, [typingFileIdentifiers]) -> done |
    error]".  A file already present is left alone; a missing one is created
    together with the directories above it; the creation fails, and writes
    nothing, when the path is locked or a plain file stands where a
    directory is needed.  An entry that is [undefined] names no file. *)
Definition installOne (target : string) (d : Disk) (typeDef : option string) : Disk :=
  match typeDef with
  | None => d
  | Some typeDef =>
      let dest := resolvePath [target; typeDef] in
      if exists_ dest d then d
      else if bool_decide (dest ∈ locked d ∨ Exists (λ a, a ∈ files d) (ancestors dest))
      then d
      else MkDisk (files d ∪ {[dest]}) (dirs d ∪ list_to_set (ancestors dest))
                  (locked d) (fetchJson d) (pluginTypingsJson d) (cordovaRoot d)
  end.

Definition install (target : string) (typeDefs : list (option string)) (d : Disk)
  : Disk :=
  foldl (installOne target) d typeDefs.

(** Modelled from the spec: the folders of [CordovaProjectHelper], which is
    not among the sources.  "Typings target directory: resolved per-project
    (root + fixed relative suffix)"; "two scan source folders:
    [<target>/plugins] (primary) and [<target>/ionic] (secondary)". *)
Definition typingsTarget (projectRoot : string) : string :=
  resolvePath [projectRoot; "typings"].
Definition pluginsFolder (projectRoot : string) : string :=
  resolvePath [typingsTarget projectRoot; "plugins"].
Definition ionicFolder (projectRoot : string) : string :=
  resolvePath [typingsTarget projectRoot; "ionic"].

(** [require] of the catalog parses the file that [existsSync] found at
    [PLUGIN_TYPE_DEFS_PATH]. *)
#[global] Instance host : Host Disk := {|
  dirname := extensionDir;
  workspaceRootPath := "/ws";
  path_resolve := resolvePath;
  path_relative := relativePath;
  path_join := joinPath;
  fs_exists := exists_;
  fs_readdir_result := readdir;
  fs_unlink_result := unlink;
  fs_writeFile_result := writeFile;
  require_json := λ _ d, pluginTypingsJson d;
  getCordovaProjectRoot := λ _ d, cordovaRoot d;
  existsSync := exists_;
  getInstalledPlugins_result := λ _ d, fetchJson d;
  getOrCreateTypingsTargetPath := typingsTarget;
  getCordovaPluginTypeDefsPath := pluginsFolder;
  getIonicPluginTypeDefsPath := ionicFolder;
  installTypings_result := install
|}.

(** *** Example data *)

Definition exampleCatalog : Catalog :=
  <["cordova-plugin-camera" := {| typingFile := "plugins/camera.d.ts" |}]>
  (<["ionic-plugin-keyboard" := {| typingFile := "ionic/keyboard.d.ts" |}]>
  (<["cordova" := {| typingFile := "cordova.d.ts" |}]> ∅)).

(** A disk with the given files and directories, the workspace [/ws], the
    project at [/p], and the catalog file in the extension folder when a
    catalog is given. *)
Definition newDisk (fs ds : list string) (installedPlugins : list string)
    (catalog : option Catalog) : Disk :=
  MkDisk (list_to_set fs ∪ match catalog with
                           | Some _ => {[catalogPath]}
                           | None => ∅
                           end)
         (list_to_set ("/ext" :: "/ws" :: ds)) ∅ installedPlugins
         (default ∅ catalog) (Some "/p").

Definition projectDirs : list string :=
  ["/p"; "/p/typings"; "/p/typings/plugins"; "/p/typings/ionic"].

(** A project with one stale file in each typings folder, the camera plugin
    and a plugin the catalog does not know. *)
Definition staleDisk : Disk :=
  newDisk ["/p/typings/plugins/old.d.ts"; "/p/typings/ionic/stale.d.ts"]
          projectDirs ["cordova-plugin-camera"; "acme-plugin"]
          (Some exampleCatalog).

(** The same catalog outside a project, with other leftovers and a locked
    file. *)
Definition otherDisk : Disk :=
  MkDisk (list_to_set ["/p/typings/plugins/old.d.ts"; "/p/typings/ionic/other.d.ts";
                       catalogPath])
         (list_to_set ("/ext" :: "/ws" :: projectDirs)) {["/p/typings/plugins/old.d.ts"]}
         [] exampleCatalog None.

(** A project that has no typings yet. *)
Definition freshDisk : Disk :=
  newDisk [] ["/p"] ["cordova-plugin-camera"; "ionic-plugin-keyboard"]
          (Some exampleCatalog).

(** An installation whose [pluginTypings.json] is missing, in a project that
    already has a declaration file. *)
Definition noCatalogDisk : Disk :=
  newDisk ["/p/typings/plugins/camera.d.ts"] projectDirs
          ["cordova-plugin-camera"] None.

(** A catalog that lacks the ["cordova"] entry and names a declaration file
    with a backslash. *)
Definition backslashCatalog : Catalog :=
  <["acme-plugin" := {| typingFile := "plugins/a\b.d.ts" |}]> ∅.

Definition backslashDisk : Disk :=
  newDisk ["/p/typings/plugins/a/b.d.ts"]
          ("/p/typings/plugins/a" :: projectDirs) ["acme-plugin"]
          (Some backslashCatalog).

(** A project with nothing installed and a stale file in the Ionic folder. *)
Definition ionicLeftoverDisk : Disk :=
  newDisk ["/p/typings/ionic/keyboard.d.ts"] projectDirs [] (Some exampleCatalog).

(** A project whose keyboard plugin is installed, its declaration file
    already in the Ionic folder. *)
Definition ionicInstalledDisk : Disk :=
  newDisk ["/p/typings/ionic/keyboard.d.ts"] projectDirs
          ["ionic-plugin-keyboard"] (Some exampleCatalog).

(** A project whose one plugin is called [constructor], a name the catalog
    does not hold; its Cordova folder exists and is empty. *)
Definition constructorDisk : Disk :=
  newDisk [] projectDirs ["constructor"] (Some exampleCatalog).

(** The same project before any typings folder exists. *)
Definition constructorFreshDisk : Disk :=
  newDisk [] ["/p"] ["constructor"] (Some exampleCatalog).

(** A project with the camera plugin and its declaration file in place,
    whose Cordova folder also holds a file whose name has backslashes in it:
    [..\plugins\camera.d.ts], a single name on a POSIX disk. *)
Definition backslashNameDisk : Disk :=
  newDisk ["/p/typings/plugins/camera.d.ts";
           "/p/typings/plugins/..\plugins\camera.d.ts"]
          projectDirs ["cordova-plugin-camera"] (Some exampleCatalog).

End MemFs.

(** Whether [addPluginTypeDefinitions] keeps a plugin: its lookup in the
    catalog is truthy, and the declaration file it gives is not among the
    current ones. *)
Definition wanted (catalog : Catalog) (currentTypeDefs : list string)
    (pluginName : string) : bool :=
  match getProperty catalog pluginName with
  | Own d => bool_decide (typingFile d ∉ currentTypeDefs)
  | Inherited => true
  | Undefined => false
  end.

(** The installed plugins whose lookup in the catalog is [undefined]. *)
Definition unknownPlugins (catalog : Catalog) (installed : list string)
  : list string :=
  filter (λ p, toBoolean (getProperty catalog p) = false) installed.

(** No installed plugin bears a name that the catalog only inherits from
    [Object.prototype]. *)
Definition plainNames (catalog : Catalog) (installed : list string) : Prop :=
  Forall (λ p, p ∈ objectPrototypeNames → is_Some (catalog !! p)) installed.

(** A project in which a plain file sits where the Cordova folder should
    be: the path exists, reading it as a directory fails. *)
Definition blockedDisk : MemFs.Disk :=
  MemFs.newDisk ["/p/typings/plugins"] ["/p"; "/p/typings"]
                ["cordova-plugin-camera"; "ionic-plugin-keyboard"]
                (Some MemFs.exampleCatalog).

(** ** The build script: [executeCordovaCommand]

    The helper of the gulp file that runs a Cordova command in a child
    process and returns a promise.  The child process is the list of events
    it emits; [Q.defer()] is a promise that the first [resolve] or [reject]
    settles for good. *)
Module Gulpfile.

Inductive Reason :=
| ErrorReason (err : string)
| ExitCodeReason (exitCode : Z).

Inductive Promise :=
| Unsettled
| Resolved
| Rejected (reason : Reason).

(** [deferred.resolve] and [deferred.reject] of Q: no effect once settled. *)
Definition settle (outcome : Promise) (p : Promise) : Promise :=
  match p with
  | Unsettled => outcome
  | _ => p
  end.

(** What the child process tells the two handlers: an ["error"] event, or
    the ["close"] event of its standard output with the argument the
    handler receives ([None] for [undefined]). *)
Inductive ChildEvent :=
| OnError (err : string)
| OnStdoutClose (exitCode : option Z).

Record Exec := MkExec {
  commandToExecute : string;
  cwd : string;
  promise : Promise;
  logged : list string
}.

Definition cordovaCmd (platform : string) : string :=
  if decide (platform = "darwin") then "cordova" else "cordova.cmd".

(** [if (exitCode)]: a number other than zero. *)
Definition truthy (exitCode : option Z) : bool :=
  match exitCode with
  | Some z => negb (z =? 0)%Z
  | None => false
  end.

Definition executeCordovaCommand (platform cwd command : string) : Exec :=
  MkExec (cordovaCmd platform +:+ " " +:+ command) cwd Unsettled [].

Definition handle (st : Exec) (ev : ChildEvent) : Exec :=
  match ev with
  | OnError err =>
      MkExec (commandToExecute st) (cwd st)
             (settle (Rejected (ErrorReason err)) (promise st))
             (logged st ++ ["Executing cordova command failed with error: " +:+ err])
  | OnStdoutClose exitCode =>
      match exitCode with
      | Some z =>
          if truthy exitCode then
            MkExec (commandToExecute st) (cwd st)
                   (settle (Rejected (ExitCodeReason z)) (promise st))
                   (logged st ++ ["Cordova command failed with exit code " +:+ pretty z])
          else
            MkExec (commandToExecute st) (cwd st)
                   (settle Resolved (promise st)) (logged st)
      | None =>
          MkExec (commandToExecute st) (cwd st)
                 (settle Resolved (promise st)) (logged st)
      end
  end.

Definition afterEvents (st : Exec) (evs : list ChildEvent) : Exec :=
  foldl handle st evs.

(** Whether an event reports a failure. *)
Definition failure (ev : ChildEvent) : bool :=
  match ev with
  | OnError _ => true
  | OnStdoutClose exitCode => truthy exitCode
  end.

End Gulpfile.

(** * Facts about the monad *)

Section MonadFacts.
Context {S : Type}.

Lemma bind_normal {A B} (m : M S A) (k : A → M S B) s s1 t1 a :
  m s = MkRun s1 t1 (Normal a) →
  bind m k s = MkRun (final (k a s1)) (t1 ++ trace (k a s1)) (completion (k a s1)).
Proof. intros E. unfold bind. rewrite E. reflexivity. Qed.

Lemma bind_thrown {A B} (m : M S A) (k : A → M S B) s s1 t1 e :
  m s = MkRun s1 t1 (Thrown e) →
  bind m k s = MkRun s1 t1 (Thrown e).
Proof. intros E. unfold bind. rewrite E. reflexivity. Qed.

Lemma run_eta {A} (r : Run S A) : MkRun (final r) (trace r) (completion r) = r.
Proof. by destruct r. Qed.

Lemma bind_pure {A B} (m : M S A) (k : A → M S B) s a :
  m s = MkRun s [] (Normal a) → bind m k s = k a s.
Proof. intros E. rewrite (bind_normal _ _ _ _ _ _ E). apply run_eta. Qed.

Lemma bind_cong {A B} (m : M S A) (k1 k2 : A → M S B) s :
  (∀ a s1 t1, m s = MkRun s1 t1 (Normal a) → k1 a s1 = k2 a s1) →
  bind m k1 s = bind m k2 s.
Proof.
  intros Hk. unfold bind. destruct (m s) as [s1 t1 [a|e]] eqn:E; simpl; [|done].
  by rewrite (Hk a s1 t1 eq_refl).
Qed.

End MonadFacts.

(** * Facts about the list helpers *)

Lemma indexOfFrom_spec {A} `{EqDecision A} (l : list A) x i :
  (0 ≤ i)%Z →
  (x ∈ l → (i ≤ indexOfFrom i l x)%Z) ∧ (x ∉ l → indexOfFrom i l x = (-1)%Z).
Proof.
  revert i. induction l as [|y l IH]; intros i Hi; simpl.
  - split; [by intros ?%elem_of_nil | done].
  - destruct (decide (y = x)) as [->|Hne].
    + split; [lia | intros []; left].
    + destruct (IH (i + 1)%Z ltac:(lia)) as [IH1 IH2]. split.
      * intros [?|Hin]%elem_of_cons; [congruence|]. specialize (IH1 Hin). lia.
      * intros Hn. apply IH2. intros Hin. apply Hn. by right.
Qed.

Lemma indexOf_negative {A} `{EqDecision A} (l : list A) x :
  (indexOf l x < 0)%Z ↔ x ∉ l.
Proof.
  unfold indexOf. destruct (indexOfFrom_spec l x 0 ltac:(lia)) as [H1 H2].
  split.
  - intros Hlt Hin. specialize (H1 Hin). lia.
  - intros Hn. rewrite (H2 Hn). lia.
Qed.

(** [undefined] is never among the declaration files found on disk. *)
Lemma undefined_not_current (cur : list string) : None ∉ Some <$> cur.
Proof. by intros (y & [=] & _)%list_elem_of_fmap. Qed.

Lemma elem_of_current (cur : list string) x : Some x ∈ Some <$> cur ↔ x ∈ cur.
Proof.
  rewrite list_elem_of_fmap. split.
  - by intros (y & [= ->] & Hy).
  - intros Hx. by exists x.
Qed.

Lemma getProperty_own c p d : c !! p = Some d → getProperty c p = Own d.
Proof. intros E. unfold getProperty. by rewrite E. Qed.

Lemma getProperty_undefined c p :
  c !! p = None → p ∉ objectPrototypeNames → getProperty c p = Undefined.
Proof.
  intros E Hn. unfold getProperty. rewrite E. by rewrite bool_decide_eq_false_2.
Qed.

Lemma getProperty_inherited c p :
  getProperty c p = Inherited ↔ c !! p = None ∧ p ∈ objectPrototypeNames.
Proof.
  unfold getProperty. destruct (c !! p) as [d|]; [by split; [|intros [? _]]|].
  destruct (bool_decide_reflect (p ∈ objectPrototypeNames)); split;
    try done; try tauto.
Qed.

Lemma desired_app c l1 l2 : desired c (l1 ++ l2) = (desired c l1 ++ desired c l2)%list.
Proof. unfold desired. apply omap_app. Qed.

Lemma elem_of_desired c l x :
  x ∈ desired c l ↔ ∃ p d, p ∈ l ∧ c !! p = Some d ∧ typingFile d = x.
Proof.
  unfold desired. rewrite list_elem_of_omap. split.
  - intros (p & Hp & Hx). destruct (c !! p) as [d|] eqn:E; simplify_eq/=. eauto.
  - intros (p & d & Hp & Hd & <-). exists p. split; [done|]. by rewrite Hd.
Qed.

Lemma desired_cons c p l :
  desired c (p :: l)
  = match c !! p with
    | Some d => typingFile d :: desired c l
    | None => desired c l
    end.
Proof. unfold desired. simpl. by destruct (c !! p). Qed.

Lemma newTypeDefsFor_app c l1 l2 :
  newTypeDefsFor c (l1 ++ l2) = (newTypeDefsFor c l1 ++ newTypeDefsFor c l2)%list.
Proof. unfold newTypeDefsFor. apply omap_app. Qed.

Lemma newTypeDefsFor_cons c p l :
  newTypeDefsFor c (p :: l)
  = match getProperty c p with
    | Own d => Some (typingFile d) :: newTypeDefsFor c l
    | Inherited => None :: newTypeDefsFor c l
    | Undefined => newTypeDefsFor c l
    end.
Proof. unfold newTypeDefsFor. simpl. by destruct (getProperty c p). Qed.

Lemma newTypeDefsFor_truthy c l :
  newTypeDefsFor c (filter (λ p, toBoolean (getProperty c p) = true) l)
  = newTypeDefsFor c l.
Proof.
  induction l as [|p l IH]; [done|].
  rewrite filter_cons, (newTypeDefsFor_cons c p l).
  destruct (decide (toBoolean (getProperty c p) = true)) as [Ht|Hf].
  - rewrite newTypeDefsFor_cons. destruct (getProperty c p); by rewrite ?IH.
  - destruct (getProperty c p); try done. all: by exfalso; apply Hf.
Qed.

(** Apart from the names inherited from [Object.prototype], the array of
    [getNewTypeDefinitions] is the desired set of the spec. *)
Lemma newTypeDefsFor_plain c l :
  plainNames c l → newTypeDefsFor c l = Some <$> desired c l.
Proof.
  induction l as [|p l IH]; intros Hl; [done|].
  apply Forall_cons in Hl as [Hp Hl].
  rewrite newTypeDefsFor_cons, desired_cons.
  unfold getProperty. destruct (c !! p) as [d|] eqn:E.
  - rewrite fmap_cons. by rewrite IH.
  - destruct (bool_decide_reflect (p ∈ objectPrototypeNames)) as [Hin|Hin];
      [|by apply IH].
    by destruct (Hp Hin).
Qed.

Lemma wanted_true c cur p :
  wanted c cur p = true
  ↔ (∃ d, getProperty c p = Own d ∧ typingFile d ∉ cur) ∨ getProperty c p = Inherited.
Proof.
  unfold wanted. destruct (getProperty c p) as [d| |].
  - rewrite bool_decide_eq_true. split; [eauto|].
    by intros [(d' & [= <-] & Hn)|?].
  - split; [by right|done].
  - split; [done|]. by intros [(d' & ? & _)|?].
Qed.

Lemma wanted_truthy c cur p :
  wanted c cur p = true → toBoolean (getProperty c p) = true.
Proof. unfold wanted. by destruct (getProperty c p). Qed.

Lemma newTypeDefsFor_wanted c cur l :
  newTypeDefsFor c (filter (λ p, wanted c cur p = true) l)
  = filter (λ x, x ∉ Some <$> cur) (newTypeDefsFor c l).
Proof.
  induction l as [|p l IH]; [done|].
  rewrite filter_cons, (newTypeDefsFor_cons c p l).
  destruct (decide (wanted c cur p = true)) as [Hw|Hw].
  - rewrite newTypeDefsFor_cons.
    apply wanted_true in Hw as [(d & -> & Hn)| ->]; rewrite filter_cons.
    + destruct (decide (Some (typingFile d) ∉ Some <$> cur)) as [|Hin]; [by f_equal|].
      exfalso. apply Hin. by rewrite elem_of_current.
    + destruct (decide (None ∉ Some <$> cur)) as [|Hin]; [by f_equal|].
      exfalso. apply Hin, undefined_not_current.
  - destruct (getProperty c p) as [d| |] eqn:E; [| |done].
    + rewrite filter_cons.
      destruct (decide (Some (typingFile d) ∉ Some <$> cur)) as [Hn|]; [|done].
      exfalso. apply Hw. apply wanted_true. left. exists d.
      split; [done|]. by rewrite <- elem_of_current.
    + exfalso. apply Hw. apply wanted_true. by right.
Qed.

(** * What each function of [cordova.ts] does, on any host *)

Section Runs.
Context {S : Type} `{Host S}.
Implicit Types (s : S) (c : Catalog).

Lemma getPluginTypingsJson_present s :
  existsSync PLUGIN_TYPE_DEFS_PATH s = true →
  getPluginTypingsJson s
  = MkRun s [] (Normal (Some (require_json PLUGIN_TYPE_DEFS_PATH s))).
Proof.
  intros E. unfold getPluginTypingsJson, bind, gets. simpl. by rewrite E.
Qed.

Lemma getPluginTypingsJson_missing s :
  existsSync PLUGIN_TYPE_DEFS_PATH s = false →
  getPluginTypingsJson s
  = MkRun s [ConsoleError CATALOG_MISSING_MESSAGE] (Normal None).
Proof.
  intros E. unfold getPluginTypingsJson, bind, gets. simpl. by rewrite E.
Qed.

(** After the filter, the map only meets names whose lookup is truthy. *)
Lemma mapM_typingFileOf c l s :
  (∀ p, p ∈ l → toBoolean (getProperty c p) = true) →
  mapM (typingFileOf c) l s = MkRun s [] (Normal (newTypeDefsFor c l)).
Proof.
  induction l as [|p l IH]; intros Hl; [done|].
  assert (IH' : mapM (typingFileOf c) l s = MkRun s [] (Normal (newTypeDefsFor c l))).
  { apply IH. intros q Hq. apply Hl. by right. }
  pose proof (Hl p ltac:(left)) as Hp.
  cbn [mapM]. rewrite newTypeDefsFor_cons. unfold typingFileOf at 1.
  destruct (getProperty c p) as [d| |]; [| |done].
  - rewrite (bind_pure _ _ s (Some (typingFile d)) eq_refl).
    by rewrite (bind_pure _ _ s _ IH').
  - rewrite (bind_pure _ _ s None eq_refl).
    by rewrite (bind_pure _ _ s _ IH').
Qed.

Lemma getNewTypeDefinitions_present s l :
  existsSync PLUGIN_TYPE_DEFS_PATH s = true →
  getNewTypeDefinitions l s
  = MkRun s [] (Normal (Some (newTypeDefsFor (require_json PLUGIN_TYPE_DEFS_PATH s) l))).
Proof.
  intros E. unfold getNewTypeDefinitions.
  rewrite (bind_pure _ _ _ _ (getPluginTypingsJson_present s E)).
  unfold bind. rewrite mapM_typingFileOf.
  - simpl. by rewrite newTypeDefsFor_truthy.
  - intros p Hp. by apply list_elem_of_filter in Hp as [? _].
Qed.

Lemma getNewTypeDefinitions_missing s l :
  existsSync PLUGIN_TYPE_DEFS_PATH s = false →
  getNewTypeDefinitions l s
  = MkRun s [ConsoleError CATALOG_MISSING_MESSAGE] (Normal None).
Proof.
  intros E. unfold getNewTypeDefinitions, bind.
  by rewrite (getPluginTypingsJson_missing s E).
Qed.

(** [getNewTypeDefinitions] leaves the disk as it is. *)
Lemma getNewTypeDefinitions_final s l s1 t1 r :
  getNewTypeDefinitions l s = MkRun s1 t1 r → s1 = s.
Proof.
  destruct (existsSync PLUGIN_TYPE_DEFS_PATH s) eqn:Ec.
  - rewrite getNewTypeDefinitions_present by done. congruence.
  - rewrite getNewTypeDefinitions_missing by done. congruence.
Qed.

Lemma unknownPlugins_cons c p l :
  unknownPlugins c (p :: l)
  = if toBoolean (getProperty c p) then unknownPlugins c l
    else p :: unknownPlugins c l.
Proof.
  unfold unknownPlugins. rewrite filter_cons.
  destruct (toBoolean (getProperty c p)); by destruct (decide _).
Qed.

Lemma filterM_wanted c cur l s :
  filterM (λ pluginName,
     if toBoolean (getProperty c pluginName) then
       let* file := typingFileOf c pluginName in
       ret (bool_decide (indexOf (Some <$> cur) file < 0)%Z)
     else
       emit (TelemetrySend (UnknownPluginEvent pluginName)) ;; ret false) l s
  = MkRun s ((λ p, TelemetrySend (UnknownPluginEvent p)) <$> unknownPlugins c l)
          (Normal (filter (λ p, wanted c cur p = true) l)).
Proof.
  induction l as [|p l IH]; [done|].
  cbn [filterM]. rewrite unknownPlugins_cons, filter_cons.
  assert (Hstep :
    (if toBoolean (getProperty c p) then
       let* file := typingFileOf c p in
       ret (bool_decide (indexOf (Some <$> cur) file < 0)%Z)
     else emit (TelemetrySend (UnknownPluginEvent p)) ;; ret false) s
    = MkRun s (if toBoolean (getProperty c p) then []
               else [TelemetrySend (UnknownPluginEvent p)])
            (Normal (wanted c cur p))).
  { unfold wanted, typingFileOf. destruct (getProperty c p) as [d| |]; cbn [toBoolean].
    - rewrite (bind_pure _ _ s (Some (typingFile d)) eq_refl).
      unfold ret. do 2 f_equal. apply bool_decide_ext.
      by rewrite indexOf_negative, elem_of_current.
    - rewrite (bind_pure _ _ s None eq_refl).
      unfold ret. do 2 f_equal. apply bool_decide_eq_true_2.
      apply indexOf_negative, undefined_not_current.
    - by rewrite (bind_normal _ _ s s [TelemetrySend (UnknownPluginEvent p)] tt eq_refl). }
  rewrite (bind_normal _ _ _ _ _ _ Hstep).
  rewrite (bind_normal _ _ _ _ _ _ IH). cbn [trace final completion ret].
  rewrite app_nil_r.
  destruct (decide (wanted c cur p = true)) as [Hw|Hw].
  - rewrite Hw, (wanted_truthy _ _ _ Hw). reflexivity.
  - apply not_true_is_false in Hw. rewrite Hw.
    by destruct (toBoolean (getProperty c p)).
Qed.

Lemma addPluginTypeDefinitions_present s root l cur :
  existsSync PLUGIN_TYPE_DEFS_PATH s = true →
  let c := require_json PLUGIN_TYPE_DEFS_PATH s in
  let target := getOrCreateTypingsTargetPath root in
  let toAdd := filter (λ x, x ∉ Some <$> cur) (newTypeDefsFor c l) in
  addPluginTypeDefinitions root l cur s
  = MkRun (installTypings_result target toAdd s)
          (((λ p, TelemetrySend (UnknownPluginEvent p)) <$> unknownPlugins c l)
           ++ [InstallTypings target toAdd])
          (Normal tt).
Proof.
  intros E c target toAdd. unfold addPluginTypeDefinitions.
  rewrite (bind_pure _ _ _ _ (getPluginTypingsJson_present s E)).
  fold c.
  rewrite (bind_normal _ _ _ _ _ _ (filterM_wanted c cur l s)).
  assert (Hknown : ∀ p, p ∈ filter (λ p, wanted c cur p = true) l →
                        toBoolean (getProperty c p) = true).
  { intros p Hp. apply list_elem_of_filter in Hp as [Hw _].
    by apply wanted_truthy in Hw. }
  rewrite (bind_pure _ _ _ _ (mapM_typingFileOf c _ s Hknown)).
  rewrite newTypeDefsFor_wanted. reflexivity.
Qed.

Lemma addPluginTypeDefinitions_missing s root l cur :
  existsSync PLUGIN_TYPE_DEFS_PATH s = false →
  addPluginTypeDefinitions root l cur s
  = MkRun s [ConsoleError CATALOG_MISSING_MESSAGE] (Normal tt).
Proof.
  intros E. unfold addPluginTypeDefinitions, bind.
  by rewrite (getPluginTypingsJson_missing s E).
Qed.

(** One iteration of the [forEach] of [removePluginTypeDefinitions]: a
    declaration file that is still wanted is skipped. *)
Lemma removePluginTypeDefinitions_kept root d cur new s :
  Some d ∈ new →
  removePluginTypeDefinitions root (d :: cur) (Some new) s
  = removePluginTypeDefinitions root cur (Some new) s.
Proof.
  intros Hin. unfold removePluginTypeDefinitions. cbn [forEach].
  rewrite (bind_pure _ _ s tt); [done|].
  rewrite (bind_pure _ _ s (indexOf new (Some d)) eq_refl).
  rewrite bool_decide_eq_false_2; [done|].
  rewrite indexOf_negative. by intros ?.
Qed.

(** A stale one is unlinked; a failure is logged and the loop goes on. *)
Lemma removePluginTypeDefinitions_stale root d cur new s :
  Some d ∉ new →
  let fileToDelete := path_resolve [getOrCreateTypingsTargetPath root; d] in
  removePluginTypeDefinitions root (d :: cur) (Some new) s
  = match fs_unlink_result fileToDelete s with
    | Some s' =>
        let r := removePluginTypeDefinitions root cur (Some new) s' in
        MkRun (final r) (Unlink fileToDelete :: trace r) (completion r)
    | None =>
        let r := removePluginTypeDefinitions root cur (Some new) s in
        MkRun (final r)
              (Unlink fileToDelete
               :: ConsoleLog ("Failed to delete file " +:+ fileToDelete)
               :: trace r)
              (completion r)
    end.
Proof.
  intros Hn fileToDelete. unfold removePluginTypeDefinitions. cbn [forEach].
  destruct (fs_unlink_result fileToDelete s) as [s'|] eqn:E.
  - rewrite (bind_normal _ _ s s' [Unlink fileToDelete] tt); [done|].
    rewrite (bind_pure _ _ s (indexOf new (Some d)) eq_refl).
    rewrite bool_decide_eq_true_2 by (by apply indexOf_negative).
    fold fileToDelete. unfold fs_unlink.
    rewrite (bind_normal _ _ s s [Unlink fileToDelete] tt eq_refl).
    rewrite (bind_pure _ _ s (Some s')); [|unfold gets; by rewrite E].
    by rewrite (bind_normal _ _ s s' [] tt eq_refl).
  - rewrite (bind_normal _ _ s s
      [Unlink fileToDelete; ConsoleLog ("Failed to delete file " +:+ fileToDelete)] tt);
      [done|].
    rewrite (bind_pure _ _ s (indexOf new (Some d)) eq_refl).
    rewrite bool_decide_eq_true_2 by (by apply indexOf_negative).
    fold fileToDelete. unfold fs_unlink.
    rewrite (bind_normal _ _ s s [Unlink fileToDelete] tt eq_refl).
    rewrite (bind_pure _ _ s None); [done|unfold gets; by rewrite E].
Qed.

Lemma removePluginTypeDefinitions_nil root new s :
  removePluginTypeDefinitions root [] new s = MkRun s [] (Normal tt).
Proof. reflexivity. Qed.

(** With [newTypeDefs] undefined the first iteration throws. *)
Lemma removePluginTypeDefinitions_undefined root d cur s :
  removePluginTypeDefinitions root (d :: cur) None s
  = MkRun s [] (Thrown (TypeError "Cannot read property 'indexOf' of undefined")).
Proof. reflexivity. Qed.

Lemma removePluginTypeDefinitions_completes root cur new s :
  completion (removePluginTypeDefinitions root cur (Some new) s) = Normal tt.
Proof.
  revert s. induction cur as [|d cur IH]; intros s; [done|].
  destruct (decide (Some d ∈ new)) as [Hin|Hn].
  - by rewrite removePluginTypeDefinitions_kept.
  - rewrite removePluginTypeDefinitions_stale by done.
    destruct (fs_unlink_result _ s); simpl; apply IH.
Qed.

Lemma removePluginTypeDefinitions_unlinked root cur new s :
  unlinked (trace (removePluginTypeDefinitions root cur (Some new) s))
  = (λ d, path_resolve [getOrCreateTypingsTargetPath root; d])
      <$> filter (λ d, Some d ∉ new) cur.
Proof.
  revert s. induction cur as [|d cur IH]; intros s; [done|].
  rewrite filter_cons. destruct (decide (Some d ∉ new)) as [Hn|Hin].
  - rewrite removePluginTypeDefinitions_stale by done.
    destruct (fs_unlink_result _ s); simpl; unfold unlinked in *; simpl;
      by rewrite IH.
  - rewrite removePluginTypeDefinitions_kept; [apply IH|].
    by destruct (decide (Some d ∈ new)).
Qed.

Lemma removePluginTypeDefinitions_effects root cur new s e :
  e ∈ trace (removePluginTypeDefinitions root cur new s) →
  (∃ p, e = Unlink p) ∨ (∃ m, e = ConsoleLog m).
Proof.
  destruct new as [new|].
  - revert s. induction cur as [|d cur IH]; intros s; [by intros ?%elem_of_nil|].
    destruct (decide (Some d ∈ new)) as [Hin|Hn].
    + rewrite removePluginTypeDefinitions_kept by done. apply IH.
    + rewrite removePluginTypeDefinitions_stale by done.
      destruct (fs_unlink_result _ s); simpl; rewrite !elem_of_cons;
        intros Hc; destruct_or?; eauto.
  - destruct cur; simpl; by intros ?%elem_of_nil.
Qed.

Lemma removePluginTypeDefinitions_logs root cur new s d :
  d ∈ cur → Some d ∉ new →
  (∀ s', fs_unlink_result
           (path_resolve [getOrCreateTypingsTargetPath root; d]) s' = None) →
  ConsoleLog ("Failed to delete file "
              +:+ path_resolve [getOrCreateTypingsTargetPath root; d])
  ∈ trace (removePluginTypeDefinitions root cur (Some new) s).
Proof.
  intros Hin Hn Hfail. revert s.
  induction cur as [|d' cur IH]; intros s; [by apply elem_of_nil in Hin|].
  destruct (decide (d' = d)) as [->|Hne].
  - rewrite removePluginTypeDefinitions_stale by done. rewrite Hfail. simpl.
    right. left.
  - apply elem_of_cons in Hin as [?|Hin]; [congruence|].
    destruct (decide (Some d' ∈ new)).
    + rewrite removePluginTypeDefinitions_kept by done. by apply IH.
    + rewrite removePluginTypeDefinitions_stale by done.
      destruct (fs_unlink_result _ s); simpl; repeat right; by apply IH.
Qed.

Lemma removePluginTypeDefinitions_deleteEach root cur new s :
  let r := removePluginTypeDefinitions root cur (Some new) s in
  (final r, trace r)
  = deleteEach ((λ d, path_resolve [getOrCreateTypingsTargetPath root; d])
                  <$> filter (λ d, Some d ∉ new) cur) s.
Proof.
  cbn zeta. revert s. induction cur as [|d cur IH]; intros s; [done|].
  rewrite filter_cons. destruct (decide (Some d ∉ new)) as [Hn|Hin].
  - rewrite removePluginTypeDefinitions_stale by done.
    rewrite fmap_cons. cbn [deleteEach].
    destruct (fs_unlink_result _ s) as [s'|]; cbn [final trace];
      by rewrite <- IH.
  - rewrite removePluginTypeDefinitions_kept; [apply IH|].
    by destruct (decide (Some d ∈ new)).
Qed.

(** *** The whole pass *)

Lemma updatePluginTypeDefinitions_bootstrap root s :
  existsSync (getCordovaPluginTypeDefsPath root) s = false →
  updatePluginTypeDefinitions root s
  = bind (getNewTypeDefinitions (getInstalledPlugins_result root s))
         (λ _, addPluginTypeDefinitions root (getInstalledPlugins_result root s) [])
         s.
Proof.
  intros E. unfold updatePluginTypeDefinitions.
  rewrite (bind_pure _ _ s _ eq_refl).
  apply bind_cong. intros new s1 t1 En.
  apply getNewTypeDefinitions_final in En as ->.
  rewrite (bind_pure _ _ s false); [done|]. unfold gets. by rewrite E.
Qed.

Lemma updatePluginTypeDefinitions_scan root s :
  existsSync (getCordovaPluginTypeDefsPath root) s = true →
  updatePluginTypeDefinitions root s
  = bind (getNewTypeDefinitions (getInstalledPlugins_result root s))
      (λ newTypeDefs,
         emit (Readdir (getCordovaPluginTypeDefsPath root)) ;;
         emit (Readdir (getIonicPluginTypeDefsPath root)) ;;
         addPluginTypeDefinitions root (getInstalledPlugins_result root s)
                                  (currentTypeDefsAt root s) ;;
         removePluginTypeDefinitions root (currentTypeDefsAt root s) newTypeDefs)
      s.
Proof.
  intros E. unfold updatePluginTypeDefinitions.
  rewrite (bind_pure _ _ s _ eq_refl).
  apply bind_cong. intros new s1 t1 En.
  apply getNewTypeDefinitions_final in En as ->.
  rewrite (bind_pure _ _ s true); [|unfold gets; by rewrite E]. simpl.
  unfold fs_readdir.
  rewrite !(bind_normal _ _ s s [Readdir (getCordovaPluginTypeDefsPath root)] tt eq_refl).
  rewrite (bind_pure _ _ s _ eq_refl).
  rewrite !(bind_normal _ _ s s [Readdir (getIonicPluginTypeDefsPath root)] tt eq_refl).
  rewrite (bind_pure _ _ s _ eq_refl).
  unfold currentTypeDefsAt.
  by destruct (fs_readdir_result (getCordovaPluginTypeDefsPath root) s).
Qed.

(** The pass when the catalog is there: the reads (if the Cordova folder
    exists), the telemetry of the unknown plugins, one installer call, then
    the removals, which run on the disk the installer left. *)
Lemma updatePluginTypeDefinitions_present root s :
  existsSync PLUGIN_TYPE_DEFS_PATH s = true →
  let c := require_json PLUGIN_TYPE_DEFS_PATH s in
  let installed := getInstalledPlugins_result root s in
  let scanned := existsSync (getCordovaPluginTypeDefsPath root) s in
  let current := if scanned then currentTypeDefsAt root s else [] in
  let target := getOrCreateTypingsTargetPath root in
  let new := newTypeDefsFor c installed in
  let toAdd := filter (λ x, x ∉ Some <$> current) new in
  let rm := removePluginTypeDefinitions root current (Some new)
              (installTypings_result target toAdd s) in
  updatePluginTypeDefinitions root s
  = MkRun (final rm)
      ((if scanned then [Readdir (getCordovaPluginTypeDefsPath root);
                         Readdir (getIonicPluginTypeDefsPath root)] else [])
       ++ ((λ p, TelemetrySend (UnknownPluginEvent p)) <$> unknownPlugins c installed)
       ++ [InstallTypings target toAdd] ++ trace rm)
      (completion rm).
Proof.
  intros Ec c installed scanned current target new toAdd rm.
  destruct scanned eqn:Es; subst scanned.
  - rewrite updatePluginTypeDefinitions_scan by done.
    rewrite (bind_pure _ _ _ _ (getNewTypeDefinitions_present s _ Ec)).
    rewrite (bind_normal _ _ s s [Readdir (getCordovaPluginTypeDefsPath root)] tt eq_refl).
    rewrite (bind_normal _ _ s s [Readdir (getIonicPluginTypeDefsPath root)] tt eq_refl).
    rewrite (bind_normal _ _ _ _ _ _ (addPluginTypeDefinitions_present s root _ _ Ec)).
    simpl. fold c installed. subst current. fold target new toAdd rm.
    by rewrite <- app_assoc.
  - rewrite updatePluginTypeDefinitions_bootstrap by done.
    rewrite (bind_pure _ _ _ _ (getNewTypeDefinitions_present s _ Ec)).
    rewrite (addPluginTypeDefinitions_present s root _ _ Ec).
    reflexivity.
Qed.

(** The pass when the catalog is missing: nothing is installed, and the
    removal loop runs with [newTypeDefs] undefined. *)
Lemma updatePluginTypeDefinitions_missing root s :
  existsSync PLUGIN_TYPE_DEFS_PATH s = false →
  let scanned := existsSync (getCordovaPluginTypeDefsPath root) s in
  let current := if scanned then currentTypeDefsAt root s else [] in
  updatePluginTypeDefinitions root s
  = MkRun s
      (ConsoleError CATALOG_MISSING_MESSAGE
       :: (if scanned then [Readdir (getCordovaPluginTypeDefsPath root);
                            Readdir (getIonicPluginTypeDefsPath root)] else [])
       ++ [ConsoleError CATALOG_MISSING_MESSAGE])
      (match current with
       | [] => Normal tt
       | _ :: _ => Thrown (TypeError "Cannot read property 'indexOf' of undefined")
       end).
Proof.
  intros Ec scanned current. destruct scanned eqn:Es; subst scanned.
  - rewrite updatePluginTypeDefinitions_scan by done.
    rewrite (bind_normal _ _ _ _ _ _ (getNewTypeDefinitions_missing s _ Ec)).
    rewrite (bind_normal _ _ s s [Readdir (getCordovaPluginTypeDefsPath root)] tt eq_refl).
    rewrite (bind_normal _ _ s s [Readdir (getIonicPluginTypeDefsPath root)] tt eq_refl).
    rewrite (bind_normal _ _ _ _ _ _ (addPluginTypeDefinitions_missing s root _ _ Ec)).
    subst current. by destruct (currentTypeDefsAt root s).
  - rewrite updatePluginTypeDefinitions_bootstrap by done.
    rewrite (bind_normal _ _ _ _ _ _ (getNewTypeDefinitions_missing s _ Ec)).
    by rewrite (addPluginTypeDefinitions_missing s root _ _ Ec).
Qed.

End Runs.

(** * Reading the trace of a pass *)

Lemma omap_all_None {A B} (f : A → option B) (l : list A) :
  (∀ x, x ∈ l → f x = None) → omap f l = [].
Proof.
  induction l as [|x l IH]; intros Hl; [done|].
  simpl. rewrite (Hl x) by left. apply IH. intros y Hy. apply Hl. by right.
Qed.

Lemma filter_not_in_nil (l : list (option string)) :
  filter (λ x, x ∉ Some <$> []) l = l.
Proof.
  induction l as [|x l IH]; [done|].
  rewrite filter_cons. destruct (decide (x ∉ Some <$> [])) as [|Hn]; [by f_equal|].
  exfalso. apply Hn. apply not_elem_of_nil.
Qed.

Section PassTrace.
Context {S : Type} `{Host S}.
Implicit Types (s : S).

Lemma installCalls_telemetry (l : list string) :
  installCalls ((λ p, TelemetrySend (UnknownPluginEvent p)) <$> l) = [].
Proof. apply omap_all_None. by intros e (p & -> & _)%list_elem_of_fmap. Qed.

Lemma unlinked_telemetry (l : list string) :
  unlinked ((λ p, TelemetrySend (UnknownPluginEvent p)) <$> l) = [].
Proof. apply omap_all_None. by intros e (p & -> & _)%list_elem_of_fmap. Qed.

Lemma readFolders_telemetry (l : list string) :
  readFolders ((λ p, TelemetrySend (UnknownPluginEvent p)) <$> l) = [].
Proof. apply omap_all_None. by intros e (p & -> & _)%list_elem_of_fmap. Qed.

Lemma sentEvents_telemetry (l : list string) :
  sentEvents ((λ p, TelemetrySend (UnknownPluginEvent p)) <$> l)
  = UnknownPluginEvent <$> l.
Proof. induction l as [|p l IH]; [done|]. simpl. by f_equal. Qed.

Lemma withoutTelemetry_telemetry (l : list string) :
  withoutTelemetry ((λ p, TelemetrySend (UnknownPluginEvent p)) <$> l) = [].
Proof.
  induction l as [|p l IH]; [done|].
  unfold withoutTelemetry in *. simpl. rewrite filter_cons. simpl.
  by destruct (decide (true = false)).
Qed.

Lemma installCalls_remove root cur new s :
  installCalls (trace (removePluginTypeDefinitions root cur new s)) = [].
Proof.
  apply omap_all_None. intros e He.
  by apply removePluginTypeDefinitions_effects in He as [[p ->]|[m ->]].
Qed.

Lemma readFolders_remove root cur new s :
  readFolders (trace (removePluginTypeDefinitions root cur new s)) = [].
Proof.
  apply omap_all_None. intros e He.
  by apply removePluginTypeDefinitions_effects in He as [[p ->]|[m ->]].
Qed.

(** What a pass with the catalog in place installs, unlinks and reads. *)
Lemma pass_installCalls root s :
  existsSync PLUGIN_TYPE_DEFS_PATH s = true →
  let current := if existsSync (getCordovaPluginTypeDefsPath root) s
                 then currentTypeDefsAt root s else [] in
  installCalls (trace (updatePluginTypeDefinitions root s))
  = [(getOrCreateTypingsTargetPath root,
      filter (λ x, x ∉ Some <$> current)
        (newTypeDefsFor (require_json PLUGIN_TYPE_DEFS_PATH s)
                        (getInstalledPlugins_result root s)))].
Proof.
  intros Ec current. rewrite (updatePluginTypeDefinitions_present root s Ec).
  cbn [trace]. unfold installCalls. rewrite !omap_app.
  fold installCalls. rewrite installCalls_telemetry, installCalls_remove.
  by destruct (existsSync (getCordovaPluginTypeDefsPath root) s).
Qed.

Lemma pass_unlinked root s :
  existsSync PLUGIN_TYPE_DEFS_PATH s = true →
  let current := if existsSync (getCordovaPluginTypeDefsPath root) s
                 then currentTypeDefsAt root s else [] in
  unlinked (trace (updatePluginTypeDefinitions root s))
  = (λ d, path_resolve [getOrCreateTypingsTargetPath root; d])
      <$> filter (λ d, Some d ∉ newTypeDefsFor (require_json PLUGIN_TYPE_DEFS_PATH s)
                                               (getInstalledPlugins_result root s))
                 current.
Proof.
  intros Ec current. rewrite (updatePluginTypeDefinitions_present root s Ec).
  cbn [trace]. unfold unlinked. rewrite !omap_app.
  fold unlinked. rewrite unlinked_telemetry, removePluginTypeDefinitions_unlinked.
  by destruct (existsSync (getCordovaPluginTypeDefsPath root) s).
Qed.

Lemma pass_completes root s :
  existsSync PLUGIN_TYPE_DEFS_PATH s = true →
  completion (updatePluginTypeDefinitions root s) = Normal tt.
Proof.
  intros Ec. rewrite (updatePluginTypeDefinitions_present root s Ec).
  apply removePluginTypeDefinitions_completes.
Qed.

End PassTrace.

(** * Properties of one pass, on any host *)

Section PassProperties.
Context {S : Type} `{Host S}.
Implicit Types (s : S).

(** X19.  The two differences of a pass are taken against one and the same
    array: with the catalog in place, the installer is called once, with
    exactly the entries of the array [getNewTypeDefinitions] returns that
    are not in the snapshot [current] the pass took, and the pass unlinks
    exactly the files of that snapshot that are not in the array.  An entry
    of the array that is [undefined] is always handed to the installer. *)
Theorem pass_diffs_against_the_new_type_definitions root s :
  existsSync PLUGIN_TYPE_DEFS_PATH s = true →
  let installed := getInstalledPlugins_result root s in
  let current := if existsSync (getCordovaPluginTypeDefsPath root) s
                 then currentTypeDefsAt root s else [] in
  let target := getOrCreateTypingsTargetPath root in
  let r := updatePluginTypeDefinitions root s in
  ∃ new,
    completion (getNewTypeDefinitions installed s) = Normal (Some new) ∧
    completion r = Normal tt ∧
    (∃ toInstall,
        installCalls (trace r) = [(target, toInstall)] ∧
        (∀ x, Some x ∈ toInstall ↔ Some x ∈ new ∧ x ∉ current) ∧
        (None ∈ toInstall ↔ None ∈ new)) ∧
    (∀ p, p ∈ unlinked (trace r) ↔
          ∃ y, y ∈ current ∧ (Some y ∉ new) ∧ p = path_resolve [target; y]).
Proof.
  intros Ec installed current target r. subst r.
  exists (newTypeDefsFor (require_json PLUGIN_TYPE_DEFS_PATH s) installed).
  split; [by rewrite getNewTypeDefinitions_present|].
  split; [by apply pass_completes|]. split.
  - eexists. split; [by apply pass_installCalls|].
    fold installed current. split.
    + intros x. by rewrite list_elem_of_filter, elem_of_current, (comm and).
    + rewrite list_elem_of_filter. split; [by intros [_ ?]|].
      intros Hn. split; [apply undefined_not_current|done].
  - intros p. rewrite pass_unlinked by done. fold installed current target.
    rewrite list_elem_of_fmap. split.
    + intros (y & -> & [Hn Hy]%list_elem_of_filter). eauto.
    + intros (y & Hy & Hn & ->). exists y. split; [done|].
      by apply list_elem_of_filter.
Qed.

(** X20.  When no installed plugin bears a name the catalog only inherits
    from [Object.prototype], a pass with the catalog in place calls the
    installer once, with exactly the desired declaration files that are not
    in the snapshot [current] the pass took, and unlinks exactly the files
    of that same snapshot that are not desired; [desired] is the image of
    the installed plugins under the catalog, and both differences compare
    declaration-file identifiers. *)
Theorem plain_names_install_and_remove_the_differences root s :
  existsSync PLUGIN_TYPE_DEFS_PATH s = true →
  let catalog := require_json PLUGIN_TYPE_DEFS_PATH s in
  let installed := getInstalledPlugins_result root s in
  plainNames catalog installed →
  let current := if existsSync (getCordovaPluginTypeDefsPath root) s
                 then currentTypeDefsAt root s else [] in
  let target := getOrCreateTypingsTargetPath root in
  let r := updatePluginTypeDefinitions root s in
  completion r = Normal tt ∧
  (∃ toInstall,
      installCalls (trace r) = [(target, Some <$> toInstall)] ∧
      ∀ x, x ∈ toInstall ↔ x ∈ desired catalog installed ∧ x ∉ current) ∧
  (∀ p, p ∈ unlinked (trace r) ↔
        ∃ y, y ∈ current ∧ (y ∉ desired catalog installed) ∧
             p = path_resolve [target; y]).
Proof.
  intros Ec catalog installed Hplain current target r. subst r.
  split; [by apply pass_completes|]. split.
  - exists (filter (λ x, x ∉ current) (desired catalog installed)).
    split; [|intros x; rewrite list_elem_of_filter; tauto].
    rewrite pass_installCalls by done. fold catalog installed current target.
    rewrite (newTypeDefsFor_plain _ _ Hplain). do 2 f_equal.
    generalize (desired catalog installed). intros l.
    induction l as [|x l IH]; [done|].
    rewrite fmap_cons, !filter_cons.
    destruct (decide (Some x ∉ Some <$> current)) as [Hn|Hin];
      destruct (decide (x ∉ current)) as [Hn'|Hin']; rewrite ?fmap_cons, IH; try done.
    + exfalso. apply Hin'. intros Hx. apply Hn. by apply elem_of_current.
    + exfalso. apply Hin. intros Hx. apply Hn'. by apply elem_of_current.
  - intros p. rewrite pass_unlinked by done. fold catalog installed current target.
    rewrite (newTypeDefsFor_plain _ _ Hplain). rewrite list_elem_of_fmap. split.
    + intros (y & -> & [Hn Hy]%list_elem_of_filter). exists y.
      split; [done|]. split; [|done]. intros Hd. apply Hn. by apply elem_of_current.
    + intros (y & Hy & Hn & ->). exists y. split; [done|].
      apply list_elem_of_filter. split; [|done].
      intros Hd. apply Hn. by apply elem_of_current.
Qed.

(** X21.  Bootstrap: when the Cordova typings folder does not exist, the
    pass reads no folder (so not the Ionic one), unlinks nothing, calls
    [fs.writeFile] for nothing, and completes; with the catalog in place its
    one installer call asks for the whole array [getNewTypeDefinitions]
    returns, which is the desired set when no installed plugin bears a name
    inherited from [Object.prototype]; without the catalog the installer is
    not called. *)
Theorem bootstrap_installs_the_new_type_definitions root s :
  existsSync (getCordovaPluginTypeDefsPath root) s = false →
  let catalog := require_json PLUGIN_TYPE_DEFS_PATH s in
  let installed := getInstalledPlugins_result root s in
  let target := getOrCreateTypingsTargetPath root in
  let r := updatePluginTypeDefinitions root s in
  readFolders (trace r) = [] ∧
  unlinked (trace r) = [] ∧
  (∀ p data, WriteFile p data ∉ trace r) ∧
  completion r = Normal tt ∧
  (if existsSync PLUGIN_TYPE_DEFS_PATH s
   then ∃ new,
          completion (getNewTypeDefinitions installed s) = Normal (Some new) ∧
          installCalls (trace r) = [(target, new)] ∧
          (plainNames catalog installed → new = Some <$> desired catalog installed)
   else installCalls (trace r) = []).
Proof.
  intros Es catalog installed target r. subst r.
  destruct (existsSync PLUGIN_TYPE_DEFS_PATH s) eqn:Ec.
  - rewrite (updatePluginTypeDefinitions_present root s Ec). rewrite Es.
    fold catalog installed target. rewrite filter_not_in_nil.
    rewrite removePluginTypeDefinitions_nil. cbn [trace final completion].
    rewrite app_nil_l, app_nil_r.
    split; [|split; [|split; [|split; [done|]]]].
    + unfold readFolders. rewrite omap_app. fold readFolders.
      by rewrite readFolders_telemetry.
    + unfold unlinked. rewrite omap_app. fold unlinked.
      by rewrite unlinked_telemetry.
    + intros p data [(q & [=] & _)%list_elem_of_fmap|Hin]%elem_of_app.
      by apply list_elem_of_singleton in Hin.
    + exists (newTypeDefsFor catalog installed).
      split; [by rewrite getNewTypeDefinitions_present|]. split.
      * unfold installCalls. rewrite omap_app. fold installCalls.
        by rewrite installCalls_telemetry.
      * apply newTypeDefsFor_plain.
  - rewrite (updatePluginTypeDefinitions_missing root s Ec). rewrite Es.
    cbn [trace final completion app].
    repeat split.
    intros p data Hin. repeat (apply elem_of_cons in Hin as [[=]|Hin]).
    by apply elem_of_nil in Hin.
Qed.

(** C7.  Whatever the outcome of each deletion, the removal loop attempts
    the deletion of every stale declaration file, in order, and returns
    normally; it is the spec's removal step: each stale file is unlinked, a
    failure is logged, and the loop goes on with the next file. *)
Theorem failed_deletion_does_not_stop_the_others root cur new s :
  let target := getOrCreateTypingsTargetPath root in
  let stale := filter (λ d, Some d ∉ new) cur in
  let r := removePluginTypeDefinitions root cur (Some new) s in
  completion r = Normal tt ∧
  unlinked (trace r) = (λ d, path_resolve [target; d]) <$> stale ∧
  (final r, trace r) = deleteEach ((λ d, path_resolve [target; d]) <$> stale) s.
Proof.
  intros target stale r. subst r target stale. split; [|split].
  - apply removePluginTypeDefinitions_completes.
  - apply removePluginTypeDefinitions_unlinked.
  - apply removePluginTypeDefinitions_deleteEach.
Qed.

(** C10.  The install list and the removal list are functions of the catalog,
    the installed plugins and the current declaration identifiers alone: two
    runs on disks that agree on the catalog compute the same installer call,
    the same new type definitions, and unlink the same files, whatever else
    differs between the disks. *)
Theorem diff_depends_only_on_catalog_installed_current
    root installed current s1 s2 :
  existsSync PLUGIN_TYPE_DEFS_PATH s1 = existsSync PLUGIN_TYPE_DEFS_PATH s2 →
  require_json PLUGIN_TYPE_DEFS_PATH s1 = require_json PLUGIN_TYPE_DEFS_PATH s2 →
  installCalls (trace (addPluginTypeDefinitions root installed current s1))
  = installCalls (trace (addPluginTypeDefinitions root installed current s2)) ∧
  completion (getNewTypeDefinitions installed s1)
  = completion (getNewTypeDefinitions installed s2) ∧
  (∀ new s1' s2',
      unlinked (trace (removePluginTypeDefinitions root current new s1'))
      = unlinked (trace (removePluginTypeDefinitions root current new s2'))).
Proof.
  intros Ee Ej. split; [|split].
  - destruct (existsSync PLUGIN_TYPE_DEFS_PATH s2) eqn:E2.
    + rewrite !addPluginTypeDefinitions_present by done. cbn [trace].
      by rewrite Ej.
    + by rewrite !addPluginTypeDefinitions_missing.
  - destruct (existsSync PLUGIN_TYPE_DEFS_PATH s2) eqn:E2.
    + rewrite !getNewTypeDefinitions_present by done. cbn. by rewrite Ej.
    + by rewrite !getNewTypeDefinitions_missing.
  - intros [new|] s1' s2'.
    + by rewrite !removePluginTypeDefinitions_unlinked.
    + by destruct current.
Qed.

Lemma newTypeDefsFor_without_unknown (c : Catalog) l1 l2 p :
  getProperty c p = Undefined →
  newTypeDefsFor c (l1 ++ p :: l2) = newTypeDefsFor c (l1 ++ l2).
Proof. intros E. by rewrite !newTypeDefsFor_app, newTypeDefsFor_cons, E. Qed.

Lemma unknownPlugins_with_unknown (c : Catalog) l1 l2 p :
  getProperty c p = Undefined →
  unknownPlugins c (l1 ++ p :: l2)
  = (unknownPlugins c l1 ++ p :: unknownPlugins c l2)%list.
Proof.
  intros E. unfold unknownPlugins. rewrite filter_app, filter_cons.
  rewrite E. cbn [toBoolean]. by destruct (decide (false = false)).
Qed.

(** X22.  A plugin that the catalog does not hold, and whose name is not
    one that objects inherit from [Object.prototype], changes nothing but
    telemetry: with it in the installed list, [getNewTypeDefinitions]
    (against which removals are decided) is the same, the installer call and
    the final disk are the same, every effect other than telemetry is the
    same, the function returns normally, and the telemetry sent is the one
    sent without it plus one [unknownPlugin] event carrying the plugin name
    as a PII property.  A pass with the catalog in place always completes. *)
Theorem unknown_plugin_with_a_plain_name_only_sends_telemetry root l1 l2 cur p s :
  existsSync PLUGIN_TYPE_DEFS_PATH s = true →
  require_json PLUGIN_TYPE_DEFS_PATH s !! p = None →
  p ∉ objectPrototypeNames →
  let r := addPluginTypeDefinitions root (l1 ++ p :: l2) cur s in
  let r' := addPluginTypeDefinitions root (l1 ++ l2) cur s in
  getNewTypeDefinitions (l1 ++ p :: l2) s = getNewTypeDefinitions (l1 ++ l2) s ∧
  completion r = Normal tt ∧
  final r = final r' ∧
  withoutTelemetry (trace r) = withoutTelemetry (trace r') ∧
  (∃ before after,
      sentEvents (trace r') = (before ++ after)%list ∧
      sentEvents (trace r) = (before ++ UnknownPluginEvent p :: after)%list) ∧
  completion (updatePluginTypeDefinitions root s) = Normal tt.
Proof.
  intros Ec Ep Hp r r'. subst r r'.
  pose proof (getProperty_undefined _ _ Ep Hp) as Eu.
  rewrite !getNewTypeDefinitions_present, !addPluginTypeDefinitions_present by done.
  cbn [trace final completion].
  rewrite (newTypeDefsFor_without_unknown _ l1 l2 p Eu).
  rewrite (unknownPlugins_with_unknown _ l1 l2 p Eu).
  repeat split.
  - unfold withoutTelemetry. rewrite !filter_app. fold withoutTelemetry.
    by rewrite !withoutTelemetry_telemetry.
  - exists (UnknownPluginEvent <$> unknownPlugins (require_json PLUGIN_TYPE_DEFS_PATH s) l1),
           (UnknownPluginEvent <$> unknownPlugins (require_json PLUGIN_TYPE_DEFS_PATH s) l2).
    unfold sentEvents. rewrite !omap_app. fold sentEvents.
    rewrite !sentEvents_telemetry. cbn [sentEvents omap list_omap].
    rewrite !app_nil_r. unfold unknownPlugins.
    rewrite filter_app, !fmap_app. by rewrite fmap_cons.
  - by apply pass_completes.
Qed.

(** C8.  Activation in a Cordova project whose catalog loads and holds the
    reserved ["cordova"] key: the first installer call asks for exactly that
    entry's declaration file, into the project's typings target, whatever
    plugins are installed and whatever the typings folders hold. *)
Theorem activation_installs_the_cordova_typings root d s :
  getCordovaProjectRoot workspaceRootPath s = Some root →
  existsSync PLUGIN_TYPE_DEFS_PATH s = true →
  require_json PLUGIN_TYPE_DEFS_PATH s !! CORDOVA_TYPINGS_QUERYSTRING = Some d →
  head (installCalls (trace (activate s)))
  = Some (getOrCreateTypingsTargetPath root, [Some (typingFile d)]).
Proof.
  intros Er Ec Ed. unfold activate.
  rewrite (bind_normal _ _ s s [TelemetryInit "cordova-tools"] tt eq_refl).
  rewrite (bind_pure _ _ s (Some root)); [|unfold gets; by rewrite Er].
  rewrite (bind_normal _ _ s s [TelemetrySend ActivateEvent] tt eq_refl).
  rewrite (bind_normal _ _ s s [CreateFileSystemWatcher "**/plugins/fetch.json"] tt eq_refl).
  rewrite (bind_normal _ _ s s [ExtensionServerSetup] tt eq_refl).
  rewrite (bind_normal _ _ s s [RegisterCommand "cordova.prepare"] tt eq_refl).
  rewrite (bind_normal _ _ s s [RegisterCommand "cordova.build"] tt eq_refl).
  rewrite (bind_normal _ _ s s [RegisterCommand "cordova.run"] tt eq_refl).
  rewrite (bind_pure _ _ _ _ (getPluginTypingsJson_present s Ec)).
  rewrite (bind_pure _ _ s (Some (typingFile d)));
    [|unfold typingFileOf; by rewrite (getProperty_own _ _ _ Ed)].
  rewrite (bind_normal _ _ s
             (installTypings_result (getOrCreateTypingsTargetPath root)
                                    [Some (typingFile d)] s)
             [InstallTypings (getOrCreateTypingsTargetPath root) [Some (typingFile d)]]
             tt eq_refl).
  reflexivity.
Qed.

(** The listing of the Ionic folder never reaches the diff: two disks that
    agree on the catalog, the installed plugins and the Cordova folder get
    the same installer call and the same deletions, whatever their Ionic
    folders hold. *)
Lemma pass_ignores_the_ionic_listing root s1 s2 :
  existsSync PLUGIN_TYPE_DEFS_PATH s1 = true →
  existsSync PLUGIN_TYPE_DEFS_PATH s2 = true →
  require_json PLUGIN_TYPE_DEFS_PATH s1 = require_json PLUGIN_TYPE_DEFS_PATH s2 →
  getInstalledPlugins_result root s1 = getInstalledPlugins_result root s2 →
  existsSync (getCordovaPluginTypeDefsPath root) s1
  = existsSync (getCordovaPluginTypeDefsPath root) s2 →
  fs_readdir_result (getCordovaPluginTypeDefsPath root) s1
  = fs_readdir_result (getCordovaPluginTypeDefsPath root) s2 →
  installCalls (trace (updatePluginTypeDefinitions root s1))
  = installCalls (trace (updatePluginTypeDefinitions root s2)) ∧
  unlinked (trace (updatePluginTypeDefinitions root s1))
  = unlinked (trace (updatePluginTypeDefinitions root s2)).
Proof.
  intros E1 E2 Ej Ei Ee Er.
  rewrite !pass_installCalls, !pass_unlinked by done.
  unfold currentTypeDefsAt. by rewrite Ej, Ei, Ee, Er.
Qed.

End PassProperties.

(** * The event loop and the pass *)

Section LoopFacts.
Context {S : Type} `{Host S}.
Implicit Types (s : S).

Lemma getNewTypeDefinitions_returns l s :
  ∃ t new, getNewTypeDefinitions l s = MkRun s t (Normal new).
Proof.
  destruct (existsSync PLUGIN_TYPE_DEFS_PATH s) eqn:Ec.
  - rewrite getNewTypeDefinitions_present by done. eauto.
  - rewrite getNewTypeDefinitions_missing by done. eauto.
Qed.

Lemma addPluginTypeDefinitions_returns root l cur s :
  ∃ s' t, addPluginTypeDefinitions root l cur s = MkRun s' t (Normal tt).
Proof.
  destruct (existsSync PLUGIN_TYPE_DEFS_PATH s) eqn:Ec.
  - rewrite addPluginTypeDefinitions_present by done. eauto.
  - rewrite addPluginTypeDefinitions_missing by done. eauto.
Qed.

(** The first turn of a pass when the Cordova folder exists: the pass is
    left waiting for the folder listing. *)
Lemma startPass_scan root s :
  existsSync (getCordovaPluginTypeDefsPath root) s = true →
  ∃ t new,
    getNewTypeDefinitions (getInstalledPlugins_result root s) s
    = MkRun s t (Normal new) ∧
    startPass root s
    = MkRun s (t ++ [Readdir (getCordovaPluginTypeDefsPath root)])
        (Normal (Some (AwaitCordovaTypeDefs root
                         (getInstalledPlugins_result root s) new))).
Proof.
  intros Es.
  destruct (getNewTypeDefinitions_returns (getInstalledPlugins_result root s) s)
    as (t & new & En).
  exists t, new. split; [done|]. unfold startPass.
  rewrite (bind_pure _ _ s _ eq_refl).
  rewrite (bind_normal _ _ _ _ _ _ En).
  rewrite (bind_pure _ _ s true); [|unfold gets; by rewrite Es].
  reflexivity.
Qed.

Lemma turn_normal (m : M S (option Pending)) rest (st : Loop S) s1 t next :
  m (disk st) = MkRun s1 t (Normal next) →
  turn m rest st
  = MkLoop s1 (rest ++ option_list next) (journal st ++ t) (uncaught st).
Proof. intros E. unfold turn. by rewrite E. Qed.

Lemma turn_thrown (m : M S (option Pending)) rest (st : Loop S) s1 t e :
  m (disk st) = MkRun s1 t (Thrown e) →
  turn m rest st = MkLoop s1 rest (journal st ++ t) (uncaught st ++ [e]).
Proof. intros E. unfold turn. by rewrite E. Qed.

Lemma runLoop_cons root i inputs (st : Loop S) :
  runLoop root (i :: inputs) st = runLoop root inputs (loopStep root i st).
Proof. reflexivity. Qed.

Lemma resumePass_cordova root installed new s :
  resumePass (AwaitCordovaTypeDefs root installed new) s
  = MkRun s [Readdir (getIonicPluginTypeDefsPath root)]
      (Normal (Some (AwaitIonicTypeDefs root installed new (currentTypeDefsAt root s)))).
Proof.
  unfold resumePass, currentTypeDefsAt.
  rewrite (bind_pure _ _ s _ eq_refl).
  by destruct (fs_readdir_result (getCordovaPluginTypeDefsPath root) s).
Qed.

Lemma resumePass_ionic root installed new cur s :
  resumePass (AwaitIonicTypeDefs root installed new cur) s
  = let r := bind (addPluginTypeDefinitions root installed cur)
                  (λ _, removePluginTypeDefinitions root cur new) s in
    MkRun (final r) (trace r)
          (match completion r with
           | Normal _ => Normal None
           | Thrown e => Thrown e
           end).
Proof.
  unfold resumePass.
  destruct (addPluginTypeDefinitions_returns root installed cur s) as (s' & ta & Ea).
  rewrite !(bind_normal _ _ _ _ _ _ Ea). cbn zeta.
  unfold bind.
  destruct (removePluginTypeDefinitions root cur new s') as [sf tr [[]|e]];
    cbn; by rewrite ?app_nil_r.
Qed.

(** X13.  Run without interleaving, the three turns of the event loop (the
    body up to the first [fs.readdir] and the two callbacks) do exactly what
    the pass of [updatePluginTypeDefinitions] does: the same disk, the same
    effects in the same order, and the same uncaught exception if any. *)
Lemma loop_runs_the_pass root kind s :
  let st := runLoop root [ManifestEvent kind; ReadCompletes 0; ReadCompletes 0]
                    (idle s) in
  let r := updatePluginTypeDefinitions root s in
  disk st = final r ∧ journal st = trace r ∧ inFlight st = [] ∧
  uncaught st = match completion r with Normal _ => [] | Thrown e => [e] end.
Proof.
  intros st r. subst st r.
  destruct (existsSync (getCordovaPluginTypeDefsPath root) s) eqn:Es.
  - destruct (startPass_scan root s Es) as (t & new & En & Est).
    rewrite updatePluginTypeDefinitions_scan by done.
    rewrite (bind_normal _ _ _ _ _ _ En).
    rewrite (bind_normal _ _ s s [Readdir (getCordovaPluginTypeDefsPath root)] tt eq_refl).
    rewrite (bind_normal _ _ s s [Readdir (getIonicPluginTypeDefsPath root)] tt eq_refl).
    rewrite runLoop_cons. cbn [loopStep].
    rewrite (turn_normal _ _ (idle s) _ _ _ Est).
    rewrite runLoop_cons.
    cbn [loopStep idle inFlight app option_list option_rect lookup list_lookup
         delete list_delete].
    erewrite turn_normal; [|apply resumePass_cordova].
    rewrite runLoop_cons.
    cbn [loopStep inFlight app option_list option_rect lookup list_lookup
         delete list_delete].
    pose proof (resumePass_ionic root (getInstalledPlugins_result root s) new
                  (currentTypeDefsAt root s) s) as Ei.
    cbn zeta in Ei.
    destruct (bind (addPluginTypeDefinitions root (getInstalledPlugins_result root s)
                      (currentTypeDefsAt root s))
                   (λ _, removePluginTypeDefinitions root (currentTypeDefsAt root s) new) s)
      as [sf tr [[]|e]]; cbn [final trace completion] in *.
    + erewrite turn_normal; [|apply Ei]. cbn. by rewrite <- !app_assoc.
    + erewrite turn_thrown; [|apply Ei]. cbn. by rewrite <- !app_assoc.
  - rewrite updatePluginTypeDefinitions_bootstrap by done.
    destruct (getNewTypeDefinitions_returns (getInstalledPlugins_result root s) s)
      as (t & new & En).
    destruct (addPluginTypeDefinitions_returns root (getInstalledPlugins_result root s)
                [] s) as (s' & ta & Ea).
    rewrite (bind_normal _ _ _ _ _ _ En), Ea.
    assert (Est : startPass root s = MkRun s' (t ++ ta) (Normal None)).
    { unfold startPass.
      rewrite (bind_pure _ _ s _ eq_refl).
      rewrite (bind_normal _ _ _ _ _ _ En).
      rewrite (bind_pure _ _ s false); [|unfold gets; by rewrite Es].
      cbn [negb]. rewrite (bind_normal _ _ _ _ _ _ Ea). cbn.
      by rewrite app_nil_r. }
    rewrite runLoop_cons. cbn [loopStep].
    rewrite (turn_normal _ _ (idle s) _ _ _ Est). done.
Qed.

(** C9, as the code has it.  Passes are not serialized: a manifest event
    starts a new pass at once, also while earlier passes over the same root
    still wait for their folder listings; the earlier passes stay in flight
    and one more is added. *)
Theorem manifest_event_starts_a_pass_at_once root kind (st : Loop S) :
  existsSync (getCordovaPluginTypeDefsPath root) (disk st) = true →
  let st' := loopStep root (ManifestEvent kind) st in
  (∃ new,
      inFlight st'
      = (inFlight st ++
         [AwaitCordovaTypeDefs root (getInstalledPlugins_result root (disk st)) new])%list) ∧
  passesInFlight st' = Datatypes.S (passesInFlight st) ∧
  disk st' = disk st.
Proof.
  intros Es st'. subst st'.
  destruct (startPass_scan root (disk st) Es) as (t & new & En & Est).
  cbn [loopStep]. unfold turn. rewrite Est. cbn.
  split; [by exists new|]. split; [|done].
  unfold passesInFlight. cbn. rewrite length_app. cbn. lia.
Qed.

(** A turn throws nothing when the waiting passes all hold a defined
    [newTypeDefs] and, if the turn starts a pass, the catalog is there. *)
Lemma loopStep_throws_nothing root i (st : Loop S) :
  uncaught st = [] →
  (∀ p, p ∈ inFlight st → is_Some (newTypeDefsOf p)) →
  match i with
  | ManifestEvent _ => existsSync PLUGIN_TYPE_DEFS_PATH (disk st) = true
  | ReadCompletes _ => True
  end →
  uncaught (loopStep root i st) = [] ∧
  (∀ p, p ∈ inFlight (loopStep root i st) → is_Some (newTypeDefsOf p)).
Proof.
  intros Hu Hp Hc. destruct i as [kind|n]; cbn [loopStep].
  - destruct (existsSync (getCordovaPluginTypeDefsPath root) (disk st)) eqn:Es.
    + destruct (startPass_scan root (disk st) Es) as (t & new & En & Est).
      rewrite getNewTypeDefinitions_present in En by done.
      injection En as <- <-.
      erewrite turn_normal; [|apply Est]. cbn [uncaught inFlight].
      split; [done|].
      intros p [Hin|Hin%list_elem_of_singleton]%elem_of_app; [by apply Hp|].
      subst p. cbn. eauto.
    + destruct (addPluginTypeDefinitions_returns root
                  (getInstalledPlugins_result root (disk st)) [] (disk st))
        as (s' & ta & Ea).
      assert (Est : startPass root (disk st) = MkRun s' ([] ++ ta) (Normal None)).
      { unfold startPass.
        rewrite (bind_pure _ _ (disk st) _ eq_refl).
        rewrite (bind_normal _ _ _ _ _ _ (getNewTypeDefinitions_present (disk st) _ Hc)).
        rewrite (bind_pure _ _ (disk st) false); [|unfold gets; by rewrite Es].
        cbn [negb]. rewrite (bind_normal _ _ _ _ _ _ Ea). cbn.
        by rewrite app_nil_r. }
      erewrite turn_normal; [|apply Est].
      cbn [uncaught inFlight option_list option_rect].
      split; [done|]. intros p. rewrite app_nil_r. apply Hp.
  - destruct (inFlight st !! n) as [p|] eqn:En; [|done].
    assert (Hpn : is_Some (newTypeDefsOf p)).
    { apply Hp. by eapply list_elem_of_lookup_2. }
    assert (Hrest : ∀ q, q ∈ delete n (inFlight st) → is_Some (newTypeDefsOf q)).
    { intros q Hq. apply Hp. by eapply list_elem_of_delete_inv. }
    destruct p as [root' installed new|root' installed new cur].
    + erewrite turn_normal; [|apply resumePass_cordova].
      cbn [uncaught inFlight]. split; [done|].
      intros q [Hin|Hin%list_elem_of_singleton]%elem_of_app; [by apply Hrest|].
      by subst q.
    + cbn [newTypeDefsOf] in Hpn. destruct Hpn as [defs ->].
      pose proof (resumePass_ionic root' installed (Some defs) cur (disk st)) as Hr.
      cbn zeta in Hr.
      destruct (addPluginTypeDefinitions_returns root' installed cur (disk st))
        as (s' & ta & Ea).
      rewrite (bind_normal _ _ _ _ _ _ Ea) in Hr.
      rewrite removePluginTypeDefinitions_completes in Hr.
      cbn [final trace completion] in Hr.
      erewrite turn_normal; [|apply Hr].
      cbn [uncaught inFlight option_list option_rect].
      split; [done|]. intros q. rewrite app_nil_r. apply Hrest.
Qed.

(** X23.  A pass only throws when it started without the catalog: whatever
    the interleaving of manifest events and read completions, and whatever
    the passes do to the disk, if the catalog file is in place each time a
    manifest event arrives then no turn ends in an uncaught exception, even
    when the catalog is gone by the time a pass reads its folders. *)
Theorem passes_started_with_the_catalog_never_throw root inputs s :
  catalogAtEveryEvent root inputs (idle s) →
  uncaught (runLoop root inputs (idle s)) = [].
Proof.
  assert (Hgen : ∀ st : Loop S,
             uncaught st = [] →
             (∀ p, p ∈ inFlight st → is_Some (newTypeDefsOf p)) →
             catalogAtEveryEvent root inputs st →
             uncaught (runLoop root inputs st) = []).
  { induction inputs as [|i inputs IH]; intros st Hu Hp Hc; [done|].
    rewrite runLoop_cons. destruct Hc as [Hi Hc].
    destruct (loopStep_throws_nothing root i st Hu Hp Hi) as [Hu' Hp'].
    by apply IH. }
  intros Hc. apply Hgen; [done| |done].
  intros p Hp. by apply elem_of_nil in Hp.
Qed.

End LoopFacts.

(** * The properties on example disks *)

Import MemFs.

Lemma replaceBackslashes_canonical s :
  noBackslash s = true → replaceBackslashes s = s.
Proof.
  induction s as [|x s IH]; simpl; [done|].
  intros [Hx Hs]%andb_true_iff. rewrite (IH Hs).
  by destruct (Ascii.eqb x "\").
Qed.

Lemma noBackslash_replaceBackslashes s : noBackslash (replaceBackslashes s) = true.
Proof.
  induction s as [|x s IH]; simpl; [done|]. rewrite IH.
  destruct (Ascii.eqb x "\") eqn:E; [done|]. simpl. by rewrite E.
Qed.

Lemma activation_installs_the_cordova_typings_witness :
  let s := MemFs.staleDisk in
  let root := "/p" in
  let d := {| typingFile := "cordova.d.ts" |} in
  getCordovaProjectRoot workspaceRootPath s = Some root ∧
  existsSync PLUGIN_TYPE_DEFS_PATH s = true ∧
  require_json PLUGIN_TYPE_DEFS_PATH s !! CORDOVA_TYPINGS_QUERYSTRING = Some d ∧
  head (installCalls (trace (activate s)))
  = Some (getOrCreateTypingsTargetPath root, [Some (typingFile d)]).
Proof.
  split; [vm_compute; reflexivity|]. split; [vm_compute; reflexivity|].
  split; [vm_compute; reflexivity|].
  apply (activation_installs_the_cordova_typings "/p" {| typingFile := "cordova.d.ts" |}
           MemFs.staleDisk);
    vm_compute; reflexivity.
Defined.

Lemma diff_depends_only_on_catalog_installed_current_witness :
  let s1 := MemFs.staleDisk in
  let s2 := MemFs.otherDisk in
  let root := "/p" in
  let installed := ["cordova-plugin-camera"; "acme-plugin"] in
  let current := ["plugins/old.d.ts"] in
  existsSync PLUGIN_TYPE_DEFS_PATH s1 = existsSync PLUGIN_TYPE_DEFS_PATH s2 ∧
  require_json PLUGIN_TYPE_DEFS_PATH s1 = require_json PLUGIN_TYPE_DEFS_PATH s2 ∧
  installCalls (trace (addPluginTypeDefinitions root installed current s1))
  = installCalls (trace (addPluginTypeDefinitions root installed current s2)) ∧
  completion (getNewTypeDefinitions installed s1)
  = completion (getNewTypeDefinitions installed s2) ∧
  (∀ new s1' s2',
      unlinked (trace (removePluginTypeDefinitions root current new s1'))
      = unlinked (trace (removePluginTypeDefinitions root current new s2'))).
Proof.
  split; [vm_compute; reflexivity|]. split; [vm_compute; reflexivity|].
  apply (diff_depends_only_on_catalog_installed_current "/p"
           ["cordova-plugin-camera"; "acme-plugin"] ["plugins/old.d.ts"]
           MemFs.staleDisk MemFs.otherDisk);
    vm_compute; reflexivity.
Defined.

Lemma manifest_event_starts_a_pass_at_once_witness :
  let st := loopStep "/p" (ManifestEvent DidChange) (idle MemFs.staleDisk) in
  existsSync (getCordovaPluginTypeDefsPath "/p") (disk st) = true ∧
  let st' := loopStep "/p" (ManifestEvent DidDelete) st in
  (∃ new,
      inFlight st'
      = (inFlight st ++
         [AwaitCordovaTypeDefs "/p" (getInstalledPlugins_result "/p" (disk st)) new])%list) ∧
  passesInFlight st' = Datatypes.S (passesInFlight st) ∧
  disk st' = disk st.
Proof.
  split; [vm_compute; reflexivity|].
  apply (manifest_event_starts_a_pass_at_once "/p" DidDelete
           (loopStep "/p" (ManifestEvent DidChange) (idle MemFs.staleDisk))).
  vm_compute. reflexivity.
Defined.

(** C9, as stated, fails: after two manifest events in a row two passes over
    the same project root are under way. *)
Lemma passes_over_one_root_overlap : ¬ serialized "/p" MemFs.staleDisk.
Proof.
  intros Hs.
  specialize (Hs [ManifestEvent DidCreate; ManifestEvent DidChange]).
  vm_compute in Hs. lia.
Qed.

(** C1, on the code.  The one installed plugin is called [constructor], a
    name the catalog does not hold: its image under the catalog, the desired
    set, is empty, and so is the snapshot of the Cordova folder, so nothing
    is to be installed.  The lookup [pluginTypings["constructor"]] finds the
    member every object inherits from [Object.prototype], the pass takes the
    plugin for a known one, and the installer is called with one entry,
    [undefined]. *)
Theorem prototype_name_reaches_the_installer :
  let s := MemFs.constructorDisk in
  let catalog := require_json PLUGIN_TYPE_DEFS_PATH s in
  let installed := getInstalledPlugins_result "/p" s in
  let r := updatePluginTypeDefinitions "/p" s in
  installed = ["constructor"] ∧
  catalog !! "constructor" = None ∧
  desired catalog installed = [] ∧
  existsSync (getCordovaPluginTypeDefsPath "/p") s = true ∧
  currentTypeDefsAt "/p" s = [] ∧
  installCalls (trace r) = [("/p/typings", [None])] ∧
  unlinked (trace r) = [].
Proof. vm_compute. repeat split. Qed.

(** C2, on the code.  The listing of the Ionic folder is read and dropped:
    a stale declaration file found only there is not unlinked and stays on
    disk, and a desired one found there is asked of the installer again. *)
Theorem ionic_listing_is_read_and_dropped :
  let r := updatePluginTypeDefinitions "/p" MemFs.ionicLeftoverDisk in
  let r' := updatePluginTypeDefinitions "/p" MemFs.ionicInstalledDisk in
  readFolders (trace r) = ["/p/typings/plugins"; "/p/typings/ionic"] ∧
  fs_readdir_result "/p/typings/ionic" MemFs.ionicLeftoverDisk = Some ["keyboard.d.ts"] ∧
  getNewTypeDefinitions (getInstalledPlugins_result "/p" MemFs.ionicLeftoverDisk)
                        MemFs.ionicLeftoverDisk
  = MkRun MemFs.ionicLeftoverDisk [] (Normal (Some [])) ∧
  unlinked (trace r) = [] ∧
  final r = MemFs.ionicLeftoverDisk ∧
  installCalls (trace r') = [("/p/typings", [Some "ionic/keyboard.d.ts"])].
Proof. vm_compute. repeat split. Qed.

(** C3, on the code.  With [pluginTypings.json] missing and a declaration
    file in the Cordova folder, the pass ends in an uncaught [TypeError]:
    [newTypeDefs] is undefined when the removal loop calls [indexOf] on it.
    Nothing is installed or deleted. *)
Theorem missing_catalog_pass_throws :
  let r := updatePluginTypeDefinitions "/p" MemFs.noCatalogDisk in
  existsSync PLUGIN_TYPE_DEFS_PATH MemFs.noCatalogDisk = false ∧
  completion r = Thrown (TypeError "Cannot read property 'indexOf' of undefined") ∧
  installCalls (trace r) = [] ∧ unlinked (trace r) = [] ∧
  final r = MemFs.noCatalogDisk ∧
  uncaught (runLoop "/p" [ManifestEvent DidChange; ReadCompletes 0; ReadCompletes 0]
                    (idle MemFs.noCatalogDisk))
  = [TypeError "Cannot read property 'indexOf' of undefined"].
Proof. vm_compute. repeat split. Qed.

(** C4, on the code.  The camera plugin is installed and its declaration
    file is in place; the Cordova folder also holds a file called
    [..\plugins\camera.d.ts].  The scan turns that name into the identifier
    [plugins/../plugins/camera.d.ts], which is not desired, and
    [path.resolve] turns the identifier into the path of the camera file:
    the first pass deletes the desired file.  With nothing changed in
    between, the second pass finds it missing, asks the installer for it,
    and unlinks it once more. *)
Theorem second_pass_installs_what_the_first_deleted :
  let s := MemFs.backslashNameDisk in
  let catalog := require_json PLUGIN_TYPE_DEFS_PATH s in
  let r1 := updatePluginTypeDefinitions "/p" s in
  let r2 := updatePluginTypeDefinitions "/p" (final r1) in
  desired catalog (getInstalledPlugins_result "/p" s) = ["plugins/camera.d.ts"] ∧
  fs_readdir_result "/p/typings/plugins" s
  = Some ["camera.d.ts"; "..\plugins\camera.d.ts"] ∧
  currentTypeDefsAt "/p" s = ["plugins/camera.d.ts"; "plugins/../plugins/camera.d.ts"] ∧
  installCalls (trace r1) = [("/p/typings", [])] ∧
  unlinked (trace r1) = ["/p/typings/plugins/camera.d.ts"] ∧
  existsSync "/p/typings/plugins/camera.d.ts" s = true ∧
  existsSync "/p/typings/plugins/camera.d.ts" (final r1) = false ∧
  getInstalledPlugins_result "/p" (final r1) = getInstalledPlugins_result "/p" s ∧
  require_json PLUGIN_TYPE_DEFS_PATH (final r1) = catalog ∧
  installCalls (trace r2) = [("/p/typings", [Some "plugins/camera.d.ts"])] ∧
  unlinked (trace r2) = ["/p/typings/plugins/camera.d.ts"].
Proof. vm_compute. repeat split. Qed.

(** C5, on the code.  Bootstrap with the one installed plugin called
    [constructor], which the catalog does not hold: the Cordova folder does
    not exist, the desired set is empty, and the installer is called with
    one entry, [undefined]. *)
Theorem bootstrap_hands_undefined_to_the_installer :
  let s := MemFs.constructorFreshDisk in
  let catalog := require_json PLUGIN_TYPE_DEFS_PATH s in
  let installed := getInstalledPlugins_result "/p" s in
  let r := updatePluginTypeDefinitions "/p" s in
  existsSync (getCordovaPluginTypeDefsPath "/p") s = false ∧
  installed = ["constructor"] ∧
  catalog !! "constructor" = None ∧
  desired catalog installed = [] ∧
  trace r = [InstallTypings "/p/typings" [None]].
Proof. vm_compute. repeat split. Qed.

(** C6, on the code.  [constructor] is absent from the catalog.  With it
    after the camera plugin in the installed list, no telemetry is sent, the
    array of [getNewTypeDefinitions] gains an [undefined] entry, and the
    installer is handed that entry too. *)
Theorem prototype_name_sends_no_telemetry :
  let s := MemFs.staleDisk in
  let catalog := require_json PLUGIN_TYPE_DEFS_PATH s in
  let r := addPluginTypeDefinitions "/p" ["cordova-plugin-camera"; "constructor"] [] s in
  let r' := addPluginTypeDefinitions "/p" ["cordova-plugin-camera"] [] s in
  catalog !! "constructor" = None ∧
  sentEvents (trace r) = [] ∧
  installCalls (trace r') = [("/p/typings", [Some "plugins/camera.d.ts"])] ∧
  installCalls (trace r) = [("/p/typings", [Some "plugins/camera.d.ts"; None])] ∧
  completion (getNewTypeDefinitions ["cordova-plugin-camera"] s)
  = Normal (Some [Some "plugins/camera.d.ts"]) ∧
  completion (getNewTypeDefinitions ["cordova-plugin-camera"; "constructor"] s)
  = Normal (Some [Some "plugins/camera.d.ts"; None]).
Proof. vm_compute. repeat split. Qed.

(** * Further properties of [cordova.ts], on any host *)

Section MoreOfThePass.
Context {S : Type} `{Host S}.
Implicit Types (s : S).

Lemma sentEvents_remove root cur new s :
  sentEvents (trace (removePluginTypeDefinitions root cur new s)) = [].
Proof.
  apply omap_all_None. intros e He.
  by apply removePluginTypeDefinitions_effects in He as [[p ->]|[m ->]].
Qed.

(** X1.  [getNewTypeDefinitions] never throws and never touches the disk:
    the map that follows the filter only meets names whose lookup in the
    catalog is truthy.  With the catalog in place it returns, in the order
    of the installed plugins and with their repetitions, the declaration
    file of every plugin that is a key of the catalog, and [undefined] for
    every other plugin whose name objects inherit from [Object.prototype];
    with the catalog missing it logs the error and returns [undefined]. *)
Theorem getNewTypeDefinitions_total l s :
  let present := existsSync PLUGIN_TYPE_DEFS_PATH s in
  let catalog := require_json PLUGIN_TYPE_DEFS_PATH s in
  getNewTypeDefinitions l s
  = MkRun s
      (if present then [] else [ConsoleError CATALOG_MISSING_MESSAGE])
      (Normal (if present
               then Some (omap (λ p, match catalog !! p with
                                     | Some d => Some (Some (typingFile d))
                                     | None =>
                                         if bool_decide (p ∈ objectPrototypeNames)
                                         then Some None else None
                                     end) l)
               else None)).
Proof.
  cbn zeta. destruct (existsSync PLUGIN_TYPE_DEFS_PATH s) eqn:Ec.
  - rewrite getNewTypeDefinitions_present by done. do 3 f_equal.
    unfold newTypeDefsFor. induction l as [|p l IH]; [done|]. cbn. rewrite IH.
    unfold getProperty.
    destruct (require_json PLUGIN_TYPE_DEFS_PATH s !! p); [done|].
    by destruct (bool_decide _).
  - by rewrite getNewTypeDefinitions_missing.
Qed.

(** X2.  The identifier [getRelativeTypeDefinitionFilePath] returns never
    holds a backslash, whatever [path.relative] gives, and normalising it
    again changes nothing. *)
Theorem relative_path_has_no_backslash root parent file :
  let id := getRelativeTypeDefinitionFilePath root parent file in
  MemFs.noBackslash id = true ∧ replaceBackslashes id = id.
Proof.
  cbn zeta. unfold getRelativeTypeDefinitionFilePath. split.
  - apply noBackslash_replaceBackslashes.
  - apply replaceBackslashes_canonical, noBackslash_replaceBackslashes.
Qed.

(** X3.  A pass without the catalog: it installs nothing, unlinks nothing,
    sends no telemetry and leaves the disk as it is; it ends in the
    [TypeError] of [newTypeDefs.indexOf] exactly when the Cordova folder
    exists and its listing holds an entry, and completes otherwise. *)
Theorem pass_without_catalog root s :
  existsSync PLUGIN_TYPE_DEFS_PATH s = false →
  let r := updatePluginTypeDefinitions root s in
  let folder := getCordovaPluginTypeDefsPath root in
  final r = s ∧ installCalls (trace r) = [] ∧ unlinked (trace r) = [] ∧
  sentEvents (trace r) = [] ∧
  (completion r = Normal tt ∨
   completion r = Thrown (TypeError "Cannot read property 'indexOf' of undefined")) ∧
  (completion r = Normal tt ↔
   existsSync folder s = false ∨ fs_readdir_result folder s = None ∨
   fs_readdir_result folder s = Some []).
Proof.
  intros Ec r folder. subst r folder.
  rewrite (updatePluginTypeDefinitions_missing root s Ec). cbn [final trace completion].
  unfold currentTypeDefsAt.
  destruct (existsSync (getCordovaPluginTypeDefsPath root) s);
    destruct (fs_readdir_result (getCordovaPluginTypeDefsPath root) s) as [[|n l]|];
    cbn; repeat split; auto; try (by intros [?|[?|?]]); by intros ?.
Qed.

(** X4.  Which folders a pass reads depends on the Cordova folder alone:
    when it exists the pass reads it and then the Ionic folder, whether or
    not the catalog is there and whether or not the first read fails; when
    it does not exist the pass reads nothing. *)
Theorem pass_reads_both_folders_or_none root s :
  readFolders (trace (updatePluginTypeDefinitions root s))
  = if existsSync (getCordovaPluginTypeDefsPath root) s
    then [getCordovaPluginTypeDefsPath root; getIonicPluginTypeDefsPath root]
    else [].
Proof.
  destruct (existsSync PLUGIN_TYPE_DEFS_PATH s) eqn:Ec.
  - rewrite (updatePluginTypeDefinitions_present root s Ec). cbn [trace].
    unfold readFolders. rewrite !omap_app. fold readFolders.
    rewrite readFolders_telemetry, readFolders_remove.
    by destruct (existsSync (getCordovaPluginTypeDefsPath root) s).
  - rewrite (updatePluginTypeDefinitions_missing root s Ec). cbn [trace].
    by destruct (existsSync (getCordovaPluginTypeDefsPath root) s).
Qed.

(** X5.  A failed read of an existing Cordova folder is taken for an empty
    folder: with the catalog in place the pass still reads the Ionic folder,
    asks the installer for the whole array [getNewTypeDefinitions] returned,
    unlinks nothing and completes. *)
Theorem failed_read_is_an_empty_folder root s :
  existsSync PLUGIN_TYPE_DEFS_PATH s = true →
  existsSync (getCordovaPluginTypeDefsPath root) s = true →
  fs_readdir_result (getCordovaPluginTypeDefsPath root) s = None →
  let r := updatePluginTypeDefinitions root s in
  (∃ new,
      completion (getNewTypeDefinitions (getInstalledPlugins_result root s) s)
      = Normal (Some new) ∧
      installCalls (trace r) = [(getOrCreateTypingsTargetPath root, new)]) ∧
  unlinked (trace r) = [] ∧
  readFolders (trace r)
  = [getCordovaPluginTypeDefsPath root; getIonicPluginTypeDefsPath root] ∧
  completion r = Normal tt.
Proof.
  intros Ec Es Er r. subst r.
  rewrite pass_installCalls, pass_unlinked, pass_completes by done.
  rewrite Es. unfold currentTypeDefsAt. rewrite Er.
  rewrite filter_not_in_nil. split; [|repeat split].
  - eexists. split; [|reflexivity]. by rewrite getNewTypeDefinitions_present.
  - rewrite (updatePluginTypeDefinitions_present root s Ec). cbn [trace].
    unfold readFolders. rewrite !omap_app. fold readFolders.
    rewrite readFolders_telemetry, readFolders_remove. by rewrite Es.
Qed.

(** X6.  A pass only unlinks what it listed in the Cordova folder, and
    only with the catalog in place: every path it unlinks is the typings
    target joined with the relative identifier of an entry of that folder's
    listing, an identifier that is not in the array [getNewTypeDefinitions]
    returned.  When the catalog is missing, or the folder is missing or
    unreadable, nothing is unlinked. *)
Theorem only_listed_entries_are_unlinked root s p :
  p ∈ unlinked (trace (updatePluginTypeDefinitions root s)) →
  existsSync PLUGIN_TYPE_DEFS_PATH s = true ∧
  existsSync (getCordovaPluginTypeDefsPath root) s = true ∧
  ∃ listing name new,
    fs_readdir_result (getCordovaPluginTypeDefsPath root) s = Some listing ∧
    name ∈ listing ∧
    completion (getNewTypeDefinitions (getInstalledPlugins_result root s) s)
    = Normal (Some new) ∧
    (Some (getRelativeTypeDefinitionFilePath
             root (getCordovaPluginTypeDefsPath root) name) ∉ new) ∧
    p = path_resolve
          [getOrCreateTypingsTargetPath root;
           getRelativeTypeDefinitionFilePath
             root (getCordovaPluginTypeDefsPath root) name].
Proof.
  destruct (existsSync PLUGIN_TYPE_DEFS_PATH s) eqn:Ec.
  - rewrite pass_unlinked by done.
    intros (y & -> & [Hnew Hy]%list_elem_of_filter)%list_elem_of_fmap.
    destruct (existsSync (getCordovaPluginTypeDefsPath root) s);
      [|by apply elem_of_nil in Hy].
    split; [done|]. split; [done|]. unfold currentTypeDefsAt in Hy.
    destruct (fs_readdir_result (getCordovaPluginTypeDefsPath root) s) as [l|];
      [|by apply elem_of_nil in Hy].
    change (map ?f l) with (f <$> l) in Hy.
    apply list_elem_of_fmap in Hy as (n & -> & Hn).
    exists l, n. eexists. split; [done|]. split; [done|].
    split; [by rewrite getNewTypeDefinitions_present|]. done.
  - rewrite (updatePluginTypeDefinitions_missing root s Ec). cbn [trace].
    destruct (existsSync (getCordovaPluginTypeDefsPath root) s); cbn;
      by intros ?%elem_of_nil.
Qed.

(** X7.  The telemetry of a pass: with the catalog in place, one
    [unknownPlugin] event for every occurrence, in the installed list, of a
    plugin that is not a key of the catalog and whose name objects do not
    inherit from [Object.prototype], in that order, on every pass; without
    the catalog none. *)
Theorem pass_telemetry root s :
  sentEvents (trace (updatePluginTypeDefinitions root s))
  = if existsSync PLUGIN_TYPE_DEFS_PATH s
    then UnknownPluginEvent
           <$> filter (λ p, require_json PLUGIN_TYPE_DEFS_PATH s !! p = None
                            ∧ p ∉ objectPrototypeNames)
                      (getInstalledPlugins_result root s)
    else [].
Proof.
  destruct (existsSync PLUGIN_TYPE_DEFS_PATH s) eqn:Ec.
  - rewrite (updatePluginTypeDefinitions_present root s Ec). cbn [trace].
    unfold sentEvents. rewrite !omap_app. fold sentEvents.
    rewrite sentEvents_telemetry, sentEvents_remove.
    assert (Hu : unknownPlugins (require_json PLUGIN_TYPE_DEFS_PATH s)
                   (getInstalledPlugins_result root s)
                 = filter (λ p, require_json PLUGIN_TYPE_DEFS_PATH s !! p = None
                                ∧ p ∉ objectPrototypeNames)
                          (getInstalledPlugins_result root s)).
    { unfold unknownPlugins. apply list_filter_iff. intros p. unfold getProperty.
      destruct (require_json PLUGIN_TYPE_DEFS_PATH s !! p) as [d|];
        [by split; [|intros [? _]]|].
      destruct (bool_decide_reflect (p ∈ objectPrototypeNames)); cbn; split;
        try done; try tauto. }
    rewrite Hu.
    destruct (existsSync (getCordovaPluginTypeDefsPath root) s); cbn;
      by rewrite app_nil_r.
  - rewrite (updatePluginTypeDefinitions_missing root s Ec). cbn [trace].
    by destruct (existsSync (getCordovaPluginTypeDefsPath root) s).
Qed.

(** X8.  The order of a pass with the catalog in place: the single
    installer call comes after every folder read and every telemetry event,
    and before every unlink and every deletion log. *)
Theorem installer_runs_after_reads_before_unlinks root s :
  existsSync PLUGIN_TYPE_DEFS_PATH s = true →
  ∃ before toAdd after,
    trace (updatePluginTypeDefinitions root s)
    = (before ++ InstallTypings (getOrCreateTypingsTargetPath root) toAdd :: after)%list ∧
    unlinked before = [] ∧ installCalls before = [] ∧
    (∀ e, e ∈ before → (∃ f, e = Readdir f) ∨ (∃ ev, e = TelemetrySend ev)) ∧
    (∀ e, e ∈ after → (∃ p, e = Unlink p) ∨ (∃ m, e = ConsoleLog m)).
Proof.
  intros Ec. rewrite (updatePluginTypeDefinitions_present root s Ec). cbn [trace].
  eexists (_ ++ _)%list, _, _. split; [by rewrite <- app_assoc|].
  split; [|split; [|split]].
  - unfold unlinked. rewrite omap_app. fold unlinked. rewrite unlinked_telemetry.
    by destruct (existsSync (getCordovaPluginTypeDefsPath root) s).
  - unfold installCalls. rewrite omap_app. fold installCalls.
    rewrite installCalls_telemetry.
    by destruct (existsSync (getCordovaPluginTypeDefsPath root) s).
  - intros e [He|(p & -> & _)%list_elem_of_fmap]%elem_of_app; [|eauto].
    destruct (existsSync (getCordovaPluginTypeDefsPath root) s);
      [|by apply elem_of_nil in He].
    repeat (apply elem_of_cons in He as [->|He]); eauto.
    by apply elem_of_nil in He.
  - intros e He. by apply removePluginTypeDefinitions_effects in He.
Qed.

End MoreOfThePass.

(** * Activation *)

Section Activation.
Context {S : Type} `{Host S}.
Implicit Types (s : S).

(** What [activate] registers before it looks for the catalog. *)
Lemma activate_registers root s :
  getCordovaProjectRoot workspaceRootPath s = Some root →
  ∀ k : string → M S unit,
    (emit (TelemetryInit "cordova-tools") ;;
     let* cordovaProjectRoot := gets (getCordovaProjectRoot workspaceRootPath) in
     match cordovaProjectRoot with
     | None => ret tt
     | Some cordovaProjectRoot =>
         emit (TelemetrySend ActivateEvent) ;;
         emit (CreateFileSystemWatcher "**/plugins/fetch.json") ;;
         emit ExtensionServerSetup ;;
         emit (RegisterCommand "cordova.prepare") ;;
         emit (RegisterCommand "cordova.build") ;;
         emit (RegisterCommand "cordova.run") ;;
         k cordovaProjectRoot
     end) s
    = MkRun (final (k root s))
        ([TelemetryInit "cordova-tools"; TelemetrySend ActivateEvent;
          CreateFileSystemWatcher "**/plugins/fetch.json"; ExtensionServerSetup;
          RegisterCommand "cordova.prepare"; RegisterCommand "cordova.build";
          RegisterCommand "cordova.run"] ++ trace (k root s))
        (completion (k root s)).
Proof.
  intros Er k.
  rewrite (bind_normal _ _ s s [TelemetryInit "cordova-tools"] tt eq_refl).
  rewrite (bind_pure _ _ s (Some root)); [|unfold gets; by rewrite Er].
  rewrite (bind_normal _ _ s s [TelemetrySend ActivateEvent] tt eq_refl).
  rewrite (bind_normal _ _ s s [CreateFileSystemWatcher "**/plugins/fetch.json"] tt eq_refl).
  rewrite (bind_normal _ _ s s [ExtensionServerSetup] tt eq_refl).
  rewrite (bind_normal _ _ s s [RegisterCommand "cordova.prepare"] tt eq_refl).
  rewrite (bind_normal _ _ s s [RegisterCommand "cordova.build"] tt eq_refl).
  rewrite (bind_normal _ _ s s [RegisterCommand "cordova.run"] tt eq_refl).
  reflexivity.
Qed.

(** X9.  Outside a Cordova project [activate] only initialises telemetry:
    no watcher, no command, no installer call, no file written, the disk
    untouched. *)
Theorem activate_outside_a_project s :
  getCordovaProjectRoot workspaceRootPath s = None →
  activate s = MkRun s [TelemetryInit "cordova-tools"] (Normal tt).
Proof.
  intros Er. unfold activate.
  rewrite (bind_normal _ _ s s [TelemetryInit "cordova-tools"] tt eq_refl).
  rewrite (bind_pure _ _ s None); [done|]. unfold gets. by rewrite Er.
Qed.

(** X10.  In a Cordova project whose catalog is missing, [activate] still
    sets up the watcher, the extension server and the three commands, logs
    the missing catalog and stops there: nothing is installed, no pass
    runs, no [jsconfig.json] is written. *)
Theorem activate_without_catalog root s :
  getCordovaProjectRoot workspaceRootPath s = Some root →
  existsSync PLUGIN_TYPE_DEFS_PATH s = false →
  activate s
  = MkRun s
      [TelemetryInit "cordova-tools"; TelemetrySend ActivateEvent;
       CreateFileSystemWatcher "**/plugins/fetch.json"; ExtensionServerSetup;
       RegisterCommand "cordova.prepare"; RegisterCommand "cordova.build";
       RegisterCommand "cordova.run"; ConsoleError CATALOG_MISSING_MESSAGE]
      (Normal tt).
Proof.
  intros Er Ec. unfold activate. rewrite (activate_registers root s Er).
  by rewrite (bind_normal _ _ _ _ _ _ (getPluginTypingsJson_missing s Ec)).
Qed.

(** X11.  A catalog that loads but has no ["cordova"] entry makes [activate]
    throw a [TypeError] ([undefined.typingFile]) after the watcher and the
    commands are set up: nothing is installed, no folder is read, and the
    disk is untouched. *)
Theorem activate_without_cordova_entry root s :
  getCordovaProjectRoot workspaceRootPath s = Some root →
  existsSync PLUGIN_TYPE_DEFS_PATH s = true →
  require_json PLUGIN_TYPE_DEFS_PATH s !! CORDOVA_TYPINGS_QUERYSTRING = None →
  activate s
  = MkRun s
      [TelemetryInit "cordova-tools"; TelemetrySend ActivateEvent;
       CreateFileSystemWatcher "**/plugins/fetch.json"; ExtensionServerSetup;
       RegisterCommand "cordova.prepare"; RegisterCommand "cordova.build";
       RegisterCommand "cordova.run"]
      (Thrown (TypeError "Cannot read property 'typingFile' of undefined")).
Proof.
  intros Er Ec Ed. unfold activate. rewrite (activate_registers root s Er).
  rewrite (bind_pure _ _ _ _ (getPluginTypingsJson_present s Ec)).
  rewrite (bind_thrown _ _ s s [] (TypeError "Cannot read property 'typingFile' of undefined"));
    [done|].
  unfold typingFileOf. rewrite (getProperty_undefined _ _ Ed); [done|].
  apply (bool_decide_unpack _). vm_compute. exact I.
Qed.

End Activation.

(** * The build script *)

Lemma settled_promise_stays st evs :
  Gulpfile.promise st ≠ Gulpfile.Unsettled →
  Gulpfile.promise (Gulpfile.afterEvents st evs) = Gulpfile.promise st.
Proof.
  unfold Gulpfile.afterEvents. revert st.
  induction evs as [|ev evs IH]; intros st Hst; [done|].
  cbn [foldl]. rewrite IH.
  - destruct ev as [err|[z|]]; cbn; [|destruct (negb _)|];
      cbn; by destruct (Gulpfile.promise st).
  - destruct ev as [err|[z|]]; cbn; [|destruct (negb _)|];
      cbn; by destruct (Gulpfile.promise st).
Qed.

Lemma logged_failures st evs :
  length (Gulpfile.logged (Gulpfile.afterEvents st evs))
  = (length (Gulpfile.logged st)
     + length (filter (λ ev, Gulpfile.failure ev = true) evs))%nat.
Proof.
  unfold Gulpfile.afterEvents. revert st.
  induction evs as [|ev evs IH]; intros st; [cbn; lia|].
  cbn [foldl]. rewrite IH, filter_cons.
  destruct ev as [err|[z|]]; cbn.
  - destruct (decide (true = true)); [|done]. rewrite length_app. cbn. lia.
  - destruct (z =? 0)%Z; cbn.
    + destruct (decide (false = true)); [done|]. lia.
    + destruct (decide (true = true)); [|done]. rewrite length_app. cbn. lia.
  - destruct (decide (false = true)); [done|]. lia.
Qed.

(** X18.  The promise [executeCordovaCommand] returns is settled by the
    first event of the child process and never changes after: it is
    resolved when that event is the close of the standard output with no
    exit code or exit code zero, and rejected with the error or the exit
    code otherwise.  Every failing event is logged, also the ones that come
    after the promise is settled. *)
Theorem first_event_settles_the_promise platform cwd command ev evs :
  let run := Gulpfile.afterEvents
               (Gulpfile.executeCordovaCommand platform cwd command) (ev :: evs) in
  Gulpfile.promise run
  = match ev with
    | Gulpfile.OnError err => Gulpfile.Rejected (Gulpfile.ErrorReason err)
    | Gulpfile.OnStdoutClose (Some z) =>
        if (z =? 0)%Z then Gulpfile.Resolved
        else Gulpfile.Rejected (Gulpfile.ExitCodeReason z)
    | Gulpfile.OnStdoutClose None => Gulpfile.Resolved
    end ∧
  length (Gulpfile.logged run)
  = length (filter (λ e, Gulpfile.failure e = true) (ev :: evs)).
Proof.
  intros run. subst run. split; [|by rewrite logged_failures].
  unfold Gulpfile.afterEvents. cbn [foldl].
  fold (Gulpfile.afterEvents
          (Gulpfile.handle (Gulpfile.executeCordovaCommand platform cwd command) ev) evs).
  rewrite settled_promise_stays.
  - destruct ev as [err|[z|]]; cbn; [done| |done]. by destruct (z =? 0)%Z.
  - destruct ev as [err|[z|]]; cbn; [done| |done]. by destruct (z =? 0)%Z.
Qed.

(** * The further properties on example disks *)

Lemma pass_diffs_against_the_new_type_definitions_witness :
  let s := staleDisk in
  let root := "/p" in
  existsSync PLUGIN_TYPE_DEFS_PATH s = true ∧
  let installed := getInstalledPlugins_result root s in
  let current := if existsSync (getCordovaPluginTypeDefsPath root) s
                 then currentTypeDefsAt root s else [] in
  let target := getOrCreateTypingsTargetPath root in
  let r := updatePluginTypeDefinitions root s in
  ∃ new,
    completion (getNewTypeDefinitions installed s) = Normal (Some new) ∧
    completion r = Normal tt ∧
    (∃ toInstall,
        installCalls (trace r) = [(target, toInstall)] ∧
        (∀ x, Some x ∈ toInstall ↔ Some x ∈ new ∧ x ∉ current) ∧
        (None ∈ toInstall ↔ None ∈ new)) ∧
    (∀ p, p ∈ unlinked (trace r) ↔
          ∃ y, y ∈ current ∧ (Some y ∉ new) ∧ p = path_resolve [target; y]).
Proof.
  split; [vm_compute; reflexivity|].
  apply (pass_diffs_against_the_new_type_definitions "/p" staleDisk).
  vm_compute. reflexivity.
Defined.

Lemma plain_names_install_and_remove_the_differences_witness :
  let s := staleDisk in
  let root := "/p" in
  existsSync PLUGIN_TYPE_DEFS_PATH s = true ∧
  let catalog := require_json PLUGIN_TYPE_DEFS_PATH s in
  let installed := getInstalledPlugins_result root s in
  plainNames catalog installed ∧
  let current := if existsSync (getCordovaPluginTypeDefsPath root) s
                 then currentTypeDefsAt root s else [] in
  let target := getOrCreateTypingsTargetPath root in
  let r := updatePluginTypeDefinitions root s in
  completion r = Normal tt ∧
  (∃ toInstall,
      installCalls (trace r) = [(target, Some <$> toInstall)] ∧
      ∀ x, x ∈ toInstall ↔ x ∈ desired catalog installed ∧ x ∉ current) ∧
  (∀ p, p ∈ unlinked (trace r) ↔
        ∃ y, y ∈ current ∧ (y ∉ desired catalog installed) ∧
             p = path_resolve [target; y]).
Proof.
  split; [vm_compute; reflexivity|].
  split; [apply (bool_decide_unpack _); vm_compute; exact I|].
  apply (plain_names_install_and_remove_the_differences "/p" staleDisk).
  - vm_compute. reflexivity.
  - apply (bool_decide_unpack _). vm_compute. exact I.
Defined.

Lemma bootstrap_installs_the_new_type_definitions_witness :
  let s := freshDisk in
  let root := "/p" in
  existsSync (getCordovaPluginTypeDefsPath root) s = false ∧
  let catalog := require_json PLUGIN_TYPE_DEFS_PATH s in
  let installed := getInstalledPlugins_result root s in
  let target := getOrCreateTypingsTargetPath root in
  let r := updatePluginTypeDefinitions root s in
  readFolders (trace r) = [] ∧
  unlinked (trace r) = [] ∧
  (∀ p data, WriteFile p data ∉ trace r) ∧
  completion r = Normal tt ∧
  (if existsSync PLUGIN_TYPE_DEFS_PATH s
   then ∃ new,
          completion (getNewTypeDefinitions installed s) = Normal (Some new) ∧
          installCalls (trace r) = [(target, new)] ∧
          (plainNames catalog installed → new = Some <$> desired catalog installed)
   else installCalls (trace r) = []).
Proof.
  split; [vm_compute; reflexivity|].
  apply (bootstrap_installs_the_new_type_definitions "/p" freshDisk).
  vm_compute. reflexivity.
Defined.

Lemma unknown_plugin_with_a_plain_name_only_sends_telemetry_witness :
  let s := staleDisk in
  let root := "/p" in
  let l1 := ["cordova-plugin-camera"] in
  let l2 := ["ionic-plugin-keyboard"] in
  let cur := ["plugins/old.d.ts"] in
  let p := "acme-plugin" in
  existsSync PLUGIN_TYPE_DEFS_PATH s = true ∧
  require_json PLUGIN_TYPE_DEFS_PATH s !! p = None ∧
  (p ∉ objectPrototypeNames) ∧
  let r := addPluginTypeDefinitions root (l1 ++ p :: l2) cur s in
  let r' := addPluginTypeDefinitions root (l1 ++ l2) cur s in
  getNewTypeDefinitions (l1 ++ p :: l2) s = getNewTypeDefinitions (l1 ++ l2) s ∧
  completion r = Normal tt ∧
  final r = final r' ∧
  withoutTelemetry (trace r) = withoutTelemetry (trace r') ∧
  (∃ before after,
      sentEvents (trace r') = (before ++ after)%list ∧
      sentEvents (trace r) = (before ++ UnknownPluginEvent p :: after)%list) ∧
  completion (updatePluginTypeDefinitions root s) = Normal tt.
Proof.
  split; [vm_compute; reflexivity|]. split; [vm_compute; reflexivity|].
  split; [apply (bool_decide_unpack _); vm_compute; exact I|].
  apply (unknown_plugin_with_a_plain_name_only_sends_telemetry "/p"
           ["cordova-plugin-camera"] ["ionic-plugin-keyboard"] ["plugins/old.d.ts"]
           "acme-plugin" staleDisk).
  - vm_compute. reflexivity.
  - vm_compute. reflexivity.
  - apply (bool_decide_unpack _). vm_compute. exact I.
Defined.

Lemma pass_without_catalog_witness :
  let s := noCatalogDisk in
  let root := "/p" in
  existsSync PLUGIN_TYPE_DEFS_PATH s = false ∧
  let r := updatePluginTypeDefinitions root s in
  let folder := getCordovaPluginTypeDefsPath root in
  final r = s ∧ installCalls (trace r) = [] ∧ unlinked (trace r) = [] ∧
  sentEvents (trace r) = [] ∧
  (completion r = Normal tt ∨
   completion r = Thrown (TypeError "Cannot read property 'indexOf' of undefined")) ∧
  (completion r = Normal tt ↔
   existsSync folder s = false ∨ fs_readdir_result folder s = None ∨
   fs_readdir_result folder s = Some []).
Proof.
  split; [vm_compute; reflexivity|].
  apply (pass_without_catalog "/p" noCatalogDisk). vm_compute. reflexivity.
Defined.

Lemma failed_read_is_an_empty_folder_witness :
  let s := blockedDisk in
  let root := "/p" in
  existsSync PLUGIN_TYPE_DEFS_PATH s = true ∧
  existsSync (getCordovaPluginTypeDefsPath root) s = true ∧
  fs_readdir_result (getCordovaPluginTypeDefsPath root) s = None ∧
  let r := updatePluginTypeDefinitions root s in
  (∃ new,
      completion (getNewTypeDefinitions (getInstalledPlugins_result root s) s)
      = Normal (Some new) ∧
      installCalls (trace r) = [(getOrCreateTypingsTargetPath root, new)]) ∧
  unlinked (trace r) = [] ∧
  readFolders (trace r)
  = [getCordovaPluginTypeDefsPath root; getIonicPluginTypeDefsPath root] ∧
  completion r = Normal tt.
Proof.
  split; [vm_compute; reflexivity|]. split; [vm_compute; reflexivity|].
  split; [vm_compute; reflexivity|].
  apply (failed_read_is_an_empty_folder "/p" blockedDisk); vm_compute; reflexivity.
Defined.

Lemma only_listed_entries_are_unlinked_witness :
  let s := staleDisk in
  let root := "/p" in
  let p := "/p/typings/plugins/old.d.ts" in
  p ∈ unlinked (trace (updatePluginTypeDefinitions root s)) ∧
  existsSync PLUGIN_TYPE_DEFS_PATH s = true ∧
  existsSync (getCordovaPluginTypeDefsPath root) s = true ∧
  ∃ listing name new,
    fs_readdir_result (getCordovaPluginTypeDefsPath root) s = Some listing ∧
    name ∈ listing ∧
    completion (getNewTypeDefinitions (getInstalledPlugins_result root s) s)
    = Normal (Some new) ∧
    (Some (getRelativeTypeDefinitionFilePath
             root (getCordovaPluginTypeDefsPath root) name) ∉ new) ∧
    p = path_resolve
          [getOrCreateTypingsTargetPath root;
           getRelativeTypeDefinitionFilePath
             root (getCordovaPluginTypeDefsPath root) name].
Proof.
  assert (Hp : "/p/typings/plugins/old.d.ts"
               ∈ unlinked (trace (updatePluginTypeDefinitions "/p" staleDisk))).
  { vm_compute. left. }
  split; [exact Hp|].
  exact (only_listed_entries_are_unlinked "/p" staleDisk _ Hp).
Defined.

Lemma installer_runs_after_reads_before_unlinks_witness :
  let s := staleDisk in
  let root := "/p" in
  existsSync PLUGIN_TYPE_DEFS_PATH s = true ∧
  ∃ before toAdd after,
    trace (updatePluginTypeDefinitions root s)
    = (before ++ InstallTypings (getOrCreateTypingsTargetPath root) toAdd :: after)%list ∧
    unlinked before = [] ∧ installCalls before = [] ∧
    (∀ e, e ∈ before → (∃ f, e = Readdir f) ∨ (∃ ev, e = TelemetrySend ev)) ∧
    (∀ e, e ∈ after → (∃ p, e = Unlink p) ∨ (∃ m, e = ConsoleLog m)).
Proof.
  split; [vm_compute; reflexivity|].
  apply (installer_runs_after_reads_before_unlinks "/p" staleDisk).
  vm_compute. reflexivity.
Defined.

Lemma activate_outside_a_project_witness :
  let s := otherDisk in
  getCordovaProjectRoot workspaceRootPath s = None ∧
  activate s = MkRun s [TelemetryInit "cordova-tools"] (Normal tt).
Proof.
  split; [vm_compute; reflexivity|].
  apply (activate_outside_a_project otherDisk). vm_compute. reflexivity.
Defined.

Lemma activate_without_catalog_witness :
  let s := noCatalogDisk in
  let root := "/p" in
  getCordovaProjectRoot workspaceRootPath s = Some root ∧
  existsSync PLUGIN_TYPE_DEFS_PATH s = false ∧
  activate s
  = MkRun s
      [TelemetryInit "cordova-tools"; TelemetrySend ActivateEvent;
       CreateFileSystemWatcher "**/plugins/fetch.json"; ExtensionServerSetup;
       RegisterCommand "cordova.prepare"; RegisterCommand "cordova.build";
       RegisterCommand "cordova.run"; ConsoleError CATALOG_MISSING_MESSAGE]
      (Normal tt).
Proof.
  split; [vm_compute; reflexivity|]. split; [vm_compute; reflexivity|].
  apply (activate_without_catalog "/p" noCatalogDisk); vm_compute; reflexivity.
Defined.

Lemma activate_without_cordova_entry_witness :
  let s := backslashDisk in
  let root := "/p" in
  getCordovaProjectRoot workspaceRootPath s = Some root ∧
  existsSync PLUGIN_TYPE_DEFS_PATH s = true ∧
  require_json PLUGIN_TYPE_DEFS_PATH s !! CORDOVA_TYPINGS_QUERYSTRING = None ∧
  activate s
  = MkRun s
      [TelemetryInit "cordova-tools"; TelemetrySend ActivateEvent;
       CreateFileSystemWatcher "**/plugins/fetch.json"; ExtensionServerSetup;
       RegisterCommand "cordova.prepare"; RegisterCommand "cordova.build";
       RegisterCommand "cordova.run"]
      (Thrown (TypeError "Cannot read property 'typingFile' of undefined")).
Proof.
  split; [vm_compute; reflexivity|]. split; [vm_compute; reflexivity|].
  split; [vm_compute; reflexivity|].
  apply (activate_without_cordova_entry "/p" backslashDisk); vm_compute; reflexivity.
Defined.

Lemma passes_started_with_the_catalog_never_throw_witness :
  let inputs := [ManifestEvent DidChange; ManifestEvent DidCreate;
                 ReadCompletes 1; ReadCompletes 0; ReadCompletes 1;
                 ReadCompletes 0] in
  catalogAtEveryEvent "/p" inputs (idle staleDisk) ∧
  uncaught (runLoop "/p" inputs (idle staleDisk)) = [].
Proof.
  assert (Hc : catalogAtEveryEvent "/p"
                 [ManifestEvent DidChange; ManifestEvent DidCreate;
                  ReadCompletes 1; ReadCompletes 0; ReadCompletes 1;
                  ReadCompletes 0] (idle staleDisk)).
  { vm_compute. repeat split. }
  split; [exact Hc|].
  exact (passes_started_with_the_catalog_never_throw "/p" _ staleDisk Hc).
Defined.
